(** * ip_lookup: the network cache and the lookup workflow

    A shallow embedding of [ip_lookup/cache.py] and [ip_lookup/lookup.py].
    Python objects mutated in place ([NetworkCache], [RirSearcher], the
    files on disk, the clock) live in one explicit [State]; a method is a
    function [State -> result A * State], so that what a raised exception
    leaves behind stays visible.  Python dictionaries keep their insertion
    order, which both [in_cache] and [save_cache] observe, so they are
    association lists with the update-in-place discipline of [dict].

    The two external collaborators (the WHOIS query and reverse DNS) are
    oracles carried by a [World].  The standard [ipaddress] module, which
    decides every classification in [_check_known_nets], is transcribed
    from CPython 3.11. *)

From Stdlib Require Import ZArith Ascii String List Bool Lia.
From stdpp Require Import base decidable option list strings gmap.

Local Open Scope string_scope.
Local Open Scope list_scope.
Local Open Scope Z_scope.
Import ListNotations.

(** ** Exceptions and results

    The exceptions are those of Python, of its library and of
    [ipwhois], by their class names.  [Unmodelled] is none of them: it
    ends a run at a value that the state of this development has no
    place for, an entry of a cache file written by another hand that
    stays in the cache and is not made of the six fields that [set]
    writes. *)

Inductive exn : Type :=
| ValueError
| AddressValueError
| NetmaskValueError
| KeyError
| IndexError
| AttributeError
| TypeError
| OverflowError
| RecursionError
| UnicodeDecodeError
| JSONDecodeError
| IPDefinedError
| Unmodelled.

Inductive result (A : Type) : Type :=
| Ok (a : A)
| Raise (e : exn).
Arguments Ok {A} a.
Arguments Raise {A} e.

#[global] Instance exn_eq_dec : EqDecision exn.
Proof. solve_decision. Defined.

Definition rbind {A B} (r : result A) (k : A -> result B) : result B :=
  match r with
  | Ok a => k a
  | Raise e => Raise e
  end.

(** [AddressValueError], [NetmaskValueError], [UnicodeDecodeError] and
    [JSONDecodeError] derive from [ValueError]: an [except ValueError]
    clause catches all five. *)
Definition is_ValueError (e : exn) : bool :=
  match e with
  | ValueError | AddressValueError | NetmaskValueError
  | UnicodeDecodeError | JSONDecodeError => true
  | _ => false
  end.

(** ** Python strings

    A string holds the UTF-8 encoding of a Python [str]: an ASCII
    character is its byte, and [split], [replace] and [join] on ASCII
    separators act on the bytes as they act on the characters. *)

Module PyStr.

Fixpoint chars (s : string) : list ascii :=
  match s with
  | EmptyString => []
  | String c s' => c :: chars s'
  end.

Definition len (s : string) : Z := Z.of_nat (String.length s).

Definition code (c : ascii) : Z := Z.of_N (N_of_ascii c).

(** [sep in s] for a one-character [sep]. *)
Definition contains_char (sep : ascii) (s : string) : bool :=
  existsb (Ascii.eqb sep) (chars s).

(** [s.split(sep)] for a one-character separator: never empty. *)
Fixpoint split (sep : ascii) (s : string) : list string :=
  match s with
  | EmptyString => [EmptyString]
  | String c s' =>
      if Ascii.eqb c sep then EmptyString :: split sep s'
      else match split sep s' with
           | [] => [String c EmptyString]
           | p :: ps => String c p :: ps
           end
  end.

(** [s.replace(a, b)] for one-character [a] and [b]. *)
Fixpoint replace_char (a b : ascii) (s : string) : string :=
  match s with
  | EmptyString => EmptyString
  | String c s' =>
      String (if Ascii.eqb c a then b else c) (replace_char a b s')
  end.

(** [s.replace(a, "")] for a one-character [a]. *)
Fixpoint remove_char (a : ascii) (s : string) : string :=
  match s with
  | EmptyString => EmptyString
  | String c s' =>
      if Ascii.eqb c a then remove_char a s' else String c (remove_char a s')
  end.

(** [sep.join(l)]. *)
Fixpoint join (sep : string) (l : list string) : string :=
  match l with
  | [] => EmptyString
  | [x] => x
  | x :: l' => x +:+ sep +:+ join sep l'
  end.

Definition is_digit (c : ascii) : bool :=
  (48 <=? code c) && (code c <=? 57).

(** [s.isascii() and s.isdigit()]: [isdigit] is false on the empty string. *)
Definition isascii_isdigit (s : string) : bool :=
  negb (String.eqb s "") && forallb is_digit (chars s).

(** The value of a string of decimal digits. *)
Definition digits_value (s : string) : Z :=
  fold_left (fun acc c => 10 * acc + (code c - 48)) (chars s) 0.

(** The white space [int] skips around a literal: tab, line feed,
    vertical tab, form feed, carriage return and space. *)
Definition is_space (c : ascii) : bool :=
  ((9 <=? code c) && (code c <=? 13)) || (code c =? 32).

Fixpoint lstrip (s : string) : string :=
  match s with
  | String c s' => if is_space c then lstrip s' else s
  | EmptyString => EmptyString
  end.

Fixpoint rstrip (s : string) : string :=
  match s with
  | EmptyString => EmptyString
  | String c s' =>
      match rstrip s' with
      | EmptyString => if is_space c then EmptyString else String c EmptyString
      | r => String c r
      end
  end.

Definition strip (s : string) : string := rstrip (lstrip s).

(** The digit part of an integer literal for [int(s)]: decimal digits,
    with single underscores allowed between two digits.  [prev] tells
    whether the previous character was a digit. *)
Fixpoint int_digits (prev : bool) (acc : Z) (s : string) : option Z :=
  match s with
  | EmptyString => if prev then Some acc else None
  | String c s' =>
      if is_digit c then int_digits true (10 * acc + (code c - 48)) s'
      else if Ascii.eqb c "_" then
        if prev then
          match s' with
          | String d _ => if is_digit d then int_digits false acc s' else None
          | EmptyString => None
          end
        else None
      else None
  end.

Definition is_continuation (c : ascii) : bool :=
  (128 <=? code c) && (code c <=? 191).

(** The code points of the [str] that [s] encodes; [None] when [s] is
    not the UTF-8 encoding of a [str]: a stray or missing continuation
    byte, an overlong form, a surrogate, a value above U+10FFFF. *)
Fixpoint code_points (s : string) : option (list Z) :=
  match s with
  | EmptyString => Some []
  | String b0 s0 =>
      let c0 := code b0 in
      if c0 <? 128 then option_map (cons c0) (code_points s0)
      else if c0 <? 194 then None
      else if c0 <? 224 then
        match s0 with
        | String b1 s1 =>
            if is_continuation b1
            then option_map (cons ((c0 - 192) * 64 + (code b1 - 128)))
                   (code_points s1)
            else None
        | _ => None
        end
      else if c0 <? 240 then
        match s0 with
        | String b1 (String b2 s2) =>
            let ch :=
              (c0 - 224) * 4096 + (code b1 - 128) * 64 + (code b2 - 128) in
            if is_continuation b1 && is_continuation b2 && (2048 <=? ch)
               && negb ((55296 <=? ch) && (ch <=? 57343))
            then option_map (cons ch) (code_points s2)
            else None
        | _ => None
        end
      else if c0 <? 245 then
        match s0 with
        | String b1 (String b2 (String b3 s3)) =>
            let ch :=
              (c0 - 240) * 262144 + (code b1 - 128) * 4096
              + (code b2 - 128) * 64 + (code b3 - 128) in
            if is_continuation b1 && is_continuation b2
               && is_continuation b3 && (65536 <=? ch) && (ch <=? 1114111)
            then option_map (cons ch) (code_points s3)
            else None
        | _ => None
        end
      else None
  end.

(** [s.isascii()]. *)
Definition isascii (s : string) : bool :=
  forallb (fun c => code c <? 128) (chars s).

(** [Py_UNICODE_ISSPACE]: the characters of bidirectional type WS, B or
    S and of category Zs. *)
Definition isspace (ch : Z) : bool :=
  ((9 <=? ch) && (ch <=? 13)) || ((28 <=? ch) && (ch <=? 32))
  || (ch =? 133) || (ch =? 160) || (ch =? 5760)
  || ((8192 <=? ch) && (ch <=? 8202))
  || (ch =? 8232) || (ch =? 8233) || (ch =? 8239) || (ch =? 8287)
  || (ch =? 12288).

(** The characters of decimal value zero in the Unicode database of the
    interpreter, version 14.0.0: each starts a run of the ten digits of
    a script. *)
Definition DECIMAL_ZEROS : list Z :=
  [48; 1632; 1776; 1984; 2406; 2534; 2662; 2790; 2918; 3046; 3174; 3302;
   3430; 3558; 3664; 3792; 3872; 4160; 4240; 6112; 6160; 6470; 6608; 6784;
   6800; 6992; 7088; 7232; 7248; 42528; 43216; 43264; 43472; 43504; 43600;
   44016; 65296; 66720; 68912; 69734; 69872; 69942; 70096; 70384; 70736;
   70864; 71248; 71360; 71472; 71904; 72016; 72784; 73040; 73120; 92768;
   92864; 93008; 120782; 120792; 120802; 120812; 120822; 123200; 123632;
   125264; 130032].

(** [Py_UNICODE_TODECIMAL]. *)
Definition to_decimal (ch : Z) : option Z :=
  option_map (fun zero => ch - zero)
    (List.find (fun zero => (zero <=? ch) && (ch <? zero + 10))
       DECIMAL_ZEROS).

(** The loop of [_PyUnicode_TransformDecimalAndSpaceToASCII]: a
    character below 127 is kept, white space becomes a space, a decimal
    digit the ASCII digit of its value, and the first character that is
    none of these ends the text with a question mark. *)
Fixpoint transform (l : list Z) : string :=
  match l with
  | [] => EmptyString
  | ch :: l' =>
      if ch <? 127 then String (ascii_of_N (Z.to_N ch)) (transform l')
      else if isspace ch then String " " (transform l')
      else match to_decimal ch with
           | Some d => String (ascii_of_N (Z.to_N (48 + d))) (transform l')
           | None => "?"
           end
  end.

(** [_PyUnicode_TransformDecimalAndSpaceToASCII(s)]: an ASCII string is
    returned as it is. *)
Definition decimal_and_space_to_ascii (s : string) : string :=
  if isascii s then s
  else match code_points s with
       | Some l => transform l
       | None => "?"
       end.

(** The default of [sys.get_int_max_str_digits()]. *)
Definition MAX_STR_DIGITS : Z := 4300.

(** The value of the digit part of a literal: a part that is not
    well formed, or has more than [MAX_STR_DIGITS] digits, has none. *)
Definition int_value (d : string) : option Z :=
  if MAX_STR_DIGITS <? Z.of_nat (length (filter is_digit (chars d)))
  then None
  else int_digits false 0 d.

(** [int(s)] in base 10.  The text is first brought to ASCII; the white
    space skipped around the literal is then the ASCII one, so the
    separators 0x1c to 0x1f, left as they are below 127, are not part of
    it.  One sign is accepted; anything else raises [ValueError]. *)
Definition int (s : string) : result Z :=
  match strip (decimal_and_space_to_ascii s) with
  | String "+" d => match int_value d with
                    | Some n => Ok n
                    | None => Raise ValueError
                    end
  | String "-" d => match int_value d with
                    | Some n => Ok (- n)
                    | None => Raise ValueError
                    end
  | d => match int_value d with
         | Some n => Ok n
         | None => Raise ValueError
         end
  end.

(** [str(n)] for a non-negative integer below 1000 (an octet). *)
Definition digit_char (d : Z) : ascii := ascii_of_N (Z.to_N (48 + d)).

Definition str_small (n : Z) : string :=
  if n <? 10 then String (digit_char n) ""
  else if n <? 100 then
    String (digit_char (n / 10)) (String (digit_char (n mod 10)) "")
  else
    String (digit_char (n / 100))
      (String (digit_char ((n / 10) mod 10))
         (String (digit_char (n mod 10)) "")).

Definition is_hex_digit (c : ascii) : bool :=
  is_digit c
  || ((65 <=? code c) && (code c <=? 70))
  || ((97 <=? code c) && (code c <=? 102)).

Definition hex_digit_value (c : ascii) : Z :=
  if is_digit c then code c - 48
  else if code c <=? 70 then code c - 55
  else code c - 87.

(** [int(s, 16)] on a string of hexadecimal digits. *)
Definition hex_value (s : string) : Z :=
  fold_left (fun acc c => 16 * acc + hex_digit_value c) (chars s) 0.

Definition hex_digit_char (d : Z) : ascii :=
  if d <? 10 then ascii_of_N (Z.to_N (48 + d))
  else ascii_of_N (Z.to_N (87 + d)).

(** ['%x' % n] for [0 <= n < 65536]. *)
Definition format_x (n : Z) : string :=
  let d3 := n / 4096 in
  let d2 := (n / 256) mod 16 in
  let d1 := (n / 16) mod 16 in
  let d0 := n mod 16 in
  if negb (d3 =? 0) then
    String (hex_digit_char d3) (String (hex_digit_char d2)
      (String (hex_digit_char d1) (String (hex_digit_char d0) "")))
  else if negb (d2 =? 0) then
    String (hex_digit_char d2)
      (String (hex_digit_char d1) (String (hex_digit_char d0) ""))
  else if negb (d1 =? 0) then
    String (hex_digit_char d1) (String (hex_digit_char d0) "")
  else String (hex_digit_char d0) "".

End PyStr.

(** ** The [ipaddress] module (CPython 3.11)

    An address is its integer [_ip], with the scope id for IPv6; a
    network is its network address and its prefix length, the netmask
    being a function of the prefix length.  Two networks are equal, as
    dictionary keys, when version, network address and netmask are. *)

Module ipaddress.

Inductive IPAddress : Type :=
| IPv4Address (_ip : Z)
| IPv6Address (_ip : Z) (_scope_id : option string).

Inductive IPNetwork : Type :=
| IPv4Network (network_address : Z) (_prefixlen : Z)
| IPv6Network (network_address : Z) (_scope_id : option string)
    (_prefixlen : Z).

#[global] Instance IPAddress_eq_dec : EqDecision IPAddress.
Proof. solve_decision. Defined.

#[global] Instance IPNetwork_eq_dec : EqDecision IPNetwork.
Proof. solve_decision. Defined.

(** [try: r  except (AddressValueError, NetmaskValueError): h]. *)
Definition except_addr_or_mask {A} (r h : result A) : result A :=
  match r with
  | Raise AddressValueError | Raise NetmaskValueError => h
  | _ => r
  end.

(** [int.bit_length()] of a non-negative integer. *)
Definition bit_length (n : Z) : Z :=
  if n =? 0 then 0 else Z.log2 n + 1.

Definition _count_righthand_zero_bits (number bits : Z) : Z :=
  if number =? 0 then bits
  else Z.min bits (bit_length (Z.land (Z.lnot number) (number - 1))).

(** The mask argument of [_make_netmask]: the integer [_max_prefixlen]
    when the text has no ['/'], the text after the ['/'] otherwise. *)
Inductive mask_arg : Type :=
| MaskInt (n : Z)
| MaskStr (s : string).

(** [_split_optional_netmask] followed by [_split_addr_prefix]. *)
Definition _split_addr_prefix (max_prefixlen : Z) (address : string)
  : result (string * mask_arg) :=
  match PyStr.split "/" address with
  | [a] => Ok (a, MaskInt max_prefixlen)
  | [a; m] => Ok (a, MaskStr m)
  | _ => Raise AddressValueError
  end.

(** The class methods of [_IPAddressBase], for a class whose
    [_max_prefixlen] is [max_prefixlen]. *)
Section base.
Variable max_prefixlen : Z.

Definition ALL_ONES : Z := 2 ^ max_prefixlen - 1.

Definition _ip_int_from_prefix (prefixlen : Z) : Z :=
  Z.lxor ALL_ONES (Z.shiftr ALL_ONES prefixlen).

Definition _prefix_from_ip_int (ip_int : Z) : result Z :=
  let trailing_zeroes := _count_righthand_zero_bits ip_int max_prefixlen in
  let prefixlen := max_prefixlen - trailing_zeroes in
  let leading_ones := Z.shiftr ip_int trailing_zeroes in
  let all_ones := Z.shiftl 1 prefixlen - 1 in
  if negb (leading_ones =? all_ones) then Raise ValueError
  else Ok prefixlen.

Definition _prefix_from_prefix_string (prefixlen_str : string) : result Z :=
  if negb (PyStr.isascii_isdigit prefixlen_str) then Raise NetmaskValueError
  else if PyStr.MAX_STR_DIGITS <? PyStr.len prefixlen_str
  then Raise NetmaskValueError
  else
    let prefixlen := PyStr.digits_value prefixlen_str in
    if negb ((0 <=? prefixlen) && (prefixlen <=? max_prefixlen))
    then Raise NetmaskValueError
    else Ok prefixlen.

(** The integer branch of [_make_netmask]. *)
Definition _prefix_from_int (prefixlen : Z) : result Z :=
  if negb ((0 <=? prefixlen) && (prefixlen <=? max_prefixlen))
  then Raise NetmaskValueError
  else Ok prefixlen.
End base.

Module V4.

Definition _max_prefixlen : Z := 32.
Definition _ALL_ONES : Z := ALL_ONES _max_prefixlen.

Definition _parse_octet (octet_str : string) : result Z :=
  if String.eqb octet_str "" then Raise ValueError
  else if negb (PyStr.isascii_isdigit octet_str) then Raise ValueError
  else if 3 <? PyStr.len octet_str then Raise ValueError
  else if negb (String.eqb octet_str "0")
          && match octet_str with
             | String c _ => Ascii.eqb c "0"
             | EmptyString => false
             end
       then Raise ValueError
  else
    let octet_int := PyStr.digits_value octet_str in
    if 255 <? octet_int then Raise ValueError else Ok octet_int.

(** [int.from_bytes(map(_parse_octet, octets), 'big')]. *)
Fixpoint from_octets (acc : Z) (octets : list string) : result Z :=
  match octets with
  | [] => Ok acc
  | o :: rest =>
      match _parse_octet o with
      | Ok b => from_octets (256 * acc + b) rest
      | Raise e => Raise e
      end
  end.

Definition _ip_int_from_string (ip_str : string) : result Z :=
  if String.eqb ip_str "" then Raise AddressValueError
  else
    let octets := PyStr.split "." ip_str in
    if negb (Z.of_nat (length octets) =? 4) then Raise AddressValueError
    else match from_octets 0 octets with
         | Ok n => Ok n
         | Raise _ => Raise AddressValueError
         end.

(** [IPv4Address(address)._ip] on a string. *)
Definition IPv4Address_ip (address : string) : result Z :=
  if PyStr.contains_char "/" address then Raise AddressValueError
  else _ip_int_from_string address.

Definition _prefix_from_ip_string (ip_str : string) : result Z :=
  match _ip_int_from_string ip_str with
  | Raise _ => Raise NetmaskValueError
  | Ok ip_int =>
      match _prefix_from_ip_int _max_prefixlen ip_int with
      | Ok p => Ok p
      | Raise _ =>
          match _prefix_from_ip_int _max_prefixlen
                  (Z.lxor ip_int _ALL_ONES) with
          | Ok p => Ok p
          | Raise _ => Raise NetmaskValueError
          end
      end
  end.

(** [_make_netmask(arg)]: the netmask and the prefix length. *)
Definition _make_netmask (arg : mask_arg) : result (Z * Z) :=
  rbind
    match arg with
    | MaskInt prefixlen => _prefix_from_int _max_prefixlen prefixlen
    | MaskStr s =>
        match _prefix_from_prefix_string _max_prefixlen s with
        | Raise NetmaskValueError => _prefix_from_ip_string s
        | r => r
        end
    end
    (fun prefixlen =>
       Ok (_ip_int_from_prefix _max_prefixlen prefixlen, prefixlen)).

(** [IPv4Network(address, strict=True)] on a string. *)
Definition IPv4Network_init (address : string) : result IPNetwork :=
  rbind (_split_addr_prefix _max_prefixlen address) (fun '(addr, mask) =>
  rbind (IPv4Address_ip addr) (fun packed =>
  rbind (_make_netmask mask) (fun '(netmask, prefixlen) =>
  if negb (Z.land packed netmask =? packed) then Raise ValueError
  else Ok (IPv4Network packed prefixlen)))).

(** ['.'.join(map(str, ip_int.to_bytes(4, 'big')))]. *)
Definition _string_from_ip_int (ip_int : Z) : string :=
  PyStr.join "."
    (map (fun k => PyStr.str_small (Z.land (Z.shiftr ip_int k) 255))
         [24; 16; 8; 0]).

(** A network written as a literal in the module's tables. *)
Definition network (literal : string) : IPNetwork :=
  match IPv4Network_init literal with
  | Ok net => net
  | Raise _ => IPv4Network 0 0
  end.

(** The tables of [_IPv4Constants]. *)
Definition _loopback_network : IPNetwork :=
  Eval vm_compute in network "127.0.0.0/8".
Definition _multicast_network : IPNetwork :=
  Eval vm_compute in network "224.0.0.0/4".
Definition _reserved_network : IPNetwork :=
  Eval vm_compute in network "240.0.0.0/4".
Definition _unspecified_address : IPAddress := IPv4Address 0.

Definition _private_networks_literals : list string :=
  [ "0.0.0.0/8"; "10.0.0.0/8"; "127.0.0.0/8"; "169.254.0.0/16";
    "172.16.0.0/12"; "192.0.0.0/24"; "192.0.0.170/31"; "192.0.2.0/24";
    "192.168.0.0/16"; "198.18.0.0/15"; "198.51.100.0/24";
    "203.0.113.0/24"; "240.0.0.0/4"; "255.255.255.255/32" ].

Definition _private_networks : list IPNetwork :=
  Eval vm_compute in map network _private_networks_literals.

Definition _private_networks_exceptions_literals : list string :=
  [ "192.0.0.9/32"; "192.0.0.10/32" ].

Definition _private_networks_exceptions : list IPNetwork :=
  Eval vm_compute in map network _private_networks_exceptions_literals.

End V4.

Module V6.

Definition _max_prefixlen : Z := 128.
Definition _ALL_ONES : Z := ALL_ONES _max_prefixlen.
Definition _HEXTET_COUNT : Z := 8.

Definition _parse_hextet (hextet_str : string) : result Z :=
  if negb (forallb PyStr.is_hex_digit (PyStr.chars hextet_str))
  then Raise ValueError
  else if 4 <? PyStr.len hextet_str then Raise ValueError
  else if String.eqb hextet_str "" then Raise ValueError
  else Ok (PyStr.hex_value hextet_str).

(** The search for ['::']: [for i in range(1, len(parts) - 1)], over
    the parts strictly between the first and the last. *)
Fixpoint find_skip (i : Z) (middle : list string) (skip_index : option Z)
  : result (option Z) :=
  match middle with
  | [] => Ok skip_index
  | p :: rest =>
      if String.eqb p "" then
        match skip_index with
        | Some _ => Raise AddressValueError
        | None => find_skip (i + 1) rest (Some i)
        end
      else find_skip (i + 1) rest skip_index
  end.

(** [ip_int <<= 16; ip_int |= _parse_hextet(p)] over [ps]. *)
Fixpoint parse_hextets (ip_int : Z) (ps : list string) : result Z :=
  match ps with
  | [] => Ok ip_int
  | p :: rest =>
      match _parse_hextet p with
      | Ok h => parse_hextets (Z.lor (Z.shiftl ip_int 16) h) rest
      | Raise e => Raise e
      end
  end.

Definition _ip_int_from_string (ip_str : string) : result Z :=
  if String.eqb ip_str "" then Raise AddressValueError
  else
    let parts := PyStr.split ":" ip_str in
    if Z.of_nat (length parts) <? 3 then Raise AddressValueError
    else
      rbind
        (if PyStr.contains_char "." (List.last parts "") then
           match V4.IPv4Address_ip (List.last parts "") with
           | Ok ipv4_int =>
               Ok (removelast parts
                   ++ [PyStr.format_x (Z.land (Z.shiftr ipv4_int 16) 65535);
                       PyStr.format_x (Z.land ipv4_int 65535)])%list
           | Raise _ => Raise AddressValueError
           end
         else Ok parts)
        (fun parts =>
      let n := Z.of_nat (length parts) in
      if _HEXTET_COUNT + 1 <? n then Raise AddressValueError
      else
        rbind (find_skip 1 (removelast (tl parts)) None) (fun skip_index =>
        rbind
          match skip_index with
          | Some skip_index =>
              let parts_hi := skip_index in
              let parts_lo := n - skip_index - 1 in
              rbind
                (if String.eqb (hd "" parts) "" then
                   if negb (parts_hi - 1 =? 0) then Raise AddressValueError
                   else Ok (parts_hi - 1)
                 else Ok parts_hi) (fun parts_hi =>
              rbind
                (if String.eqb (List.last parts "") "" then
                   if negb (parts_lo - 1 =? 0) then Raise AddressValueError
                   else Ok (parts_lo - 1)
                 else Ok parts_lo) (fun parts_lo =>
              let parts_skipped := _HEXTET_COUNT - (parts_hi + parts_lo) in
              if parts_skipped <? 1 then Raise AddressValueError
              else Ok (parts_hi, parts_lo, parts_skipped)))
          | None =>
              if negb (n =? _HEXTET_COUNT) then Raise AddressValueError
              else if String.eqb (hd "" parts) "" then Raise AddressValueError
              else if String.eqb (List.last parts "") ""
                   then Raise AddressValueError
              else Ok (n, 0, 0)
          end
          (fun '(parts_hi, parts_lo, parts_skipped) =>
        match
          rbind (parse_hextets 0 (firstn (Z.to_nat parts_hi) parts))
            (fun ip_int =>
          parse_hextets (Z.shiftl ip_int (16 * parts_skipped))
            (skipn (Z.to_nat (n - parts_lo)) parts))
        with
        | Ok ip_int => Ok ip_int
        | Raise _ => Raise AddressValueError
        end))).

(** [_split_scope_id(ip_str)]: [ip_str.partition('%')]. *)
Definition _split_scope_id (ip_str : string)
  : result (string * option string) :=
  match PyStr.split "%" ip_str with
  | [addr] => Ok (addr, None)
  | [addr; scope_id] =>
      if String.eqb scope_id "" then Raise AddressValueError
      else Ok (addr, Some scope_id)
  | _ => Raise AddressValueError
  end.

(** [IPv6Address(address)] on a string: [_ip] and [_scope_id]. *)
Definition IPv6Address_init (address : string)
  : result (Z * option string) :=
  if PyStr.contains_char "/" address then Raise AddressValueError
  else
    rbind (_split_scope_id address) (fun '(addr_str, scope_id) =>
    rbind (_ip_int_from_string addr_str) (fun ip => Ok (ip, scope_id))).

Definition _make_netmask (arg : mask_arg) : result (Z * Z) :=
  rbind
    match arg with
    | MaskInt prefixlen => _prefix_from_int _max_prefixlen prefixlen
    | MaskStr s => _prefix_from_prefix_string _max_prefixlen s
    end
    (fun prefixlen =>
       Ok (_ip_int_from_prefix _max_prefixlen prefixlen, prefixlen)).

(** [IPv6Network(address, strict=True)] on a string. *)
Definition IPv6Network_init (address : string) : result IPNetwork :=
  rbind (_split_addr_prefix _max_prefixlen address) (fun '(addr, mask) =>
  rbind (IPv6Address_init addr) (fun '(packed, scope_id) =>
  rbind (_make_netmask mask) (fun '(netmask, prefixlen) =>
  if negb (Z.land packed netmask =? packed) then Raise ValueError
  else Ok (IPv6Network packed scope_id prefixlen)))).

(** The loop of [_compress_hextets]: the start and the length of the
    longest run of ["0"], the first one when several are as long. *)
Fixpoint best_run (hextets : list string)
    (index best_start best_len start len : Z) : Z * Z :=
  match hextets with
  | [] => (best_start, best_len)
  | hextet :: rest =>
      if String.eqb hextet "0" then
        let len := len + 1 in
        let start := if start =? -1 then index else start in
        if best_len <? len
        then best_run rest (index + 1) start len start len
        else best_run rest (index + 1) best_start best_len start len
      else best_run rest (index + 1) best_start best_len (-1) 0
  end.

Definition _compress_hextets (hextets : list string) : list string :=
  let '(best_start, best_len) := best_run hextets 0 (-1) 0 (-1) 0 in
  if 1 <? best_len then
    let best_end := best_start + best_len in
    let hextets :=
      if best_end =? Z.of_nat (length hextets)
      then (hextets ++ [""])%list else hextets in
    let hextets :=
      (firstn (Z.to_nat best_start) hextets ++ [""]
       ++ skipn (Z.to_nat best_end) hextets)%list in
    if best_start =? 0 then "" :: hextets else hextets
  else hextets.

Definition _string_from_ip_int (ip_int : Z) : string :=
  let hextets :=
    map (fun k => PyStr.format_x (Z.land (Z.shiftr ip_int k) 65535))
        [112; 96; 80; 64; 48; 32; 16; 0] in
  PyStr.join ":" (_compress_hextets hextets).

(** A network written as a literal in the module's tables. *)
Definition network (literal : string) : IPNetwork :=
  match IPv6Network_init literal with
  | Ok net => net
  | Raise _ => IPv6Network 0 None 0
  end.

(** The tables of [_IPv6Constants]. *)
Definition _multicast_network : IPNetwork :=
  Eval vm_compute in network "ff00::/8".

Definition _private_networks_literals : list string :=
  [ "::1/128"; "::/128"; "::ffff:0:0/96"; "64:ff9b:1::/48"; "100::/64";
    "2001::/23"; "2001:db8::/32"; "2002::/16"; "fc00::/7"; "fe80::/10" ].

Definition _private_networks : list IPNetwork :=
  Eval vm_compute in map network _private_networks_literals.

Definition _private_networks_exceptions_literals : list string :=
  [ "2001:1::1/128"; "2001:1::2/128"; "2001:3::/32"; "2001:4:112::/48";
    "2001:20::/28"; "2001:30::/28" ].

Definition _private_networks_exceptions : list IPNetwork :=
  Eval vm_compute in map network _private_networks_exceptions_literals.

Definition _reserved_networks_literals : list string :=
  [ "::/8"; "100::/8"; "200::/7"; "400::/6"; "800::/5"; "1000::/4";
    "4000::/3"; "6000::/3"; "8000::/3"; "A000::/3"; "C000::/3";
    "E000::/4"; "F000::/5"; "F800::/6"; "FE00::/9" ].

Definition _reserved_networks : list IPNetwork :=
  Eval vm_compute in map network _reserved_networks_literals.

(** [ipv4_mapped], as the integer of the embedded address. *)
Definition ipv4_mapped (ip : Z) : option Z :=
  if negb (Z.shiftr ip 32 =? 65535) then None
  else Some (Z.land ip 4294967295).

End V6.

(** [addr in net] ([_BaseNetwork.__contains__]): false across versions. *)
Definition contains (net : IPNetwork) (addr : IPAddress) : bool :=
  match net, addr with
  | IPv4Network na p, IPv4Address ip =>
      Z.land ip (_ip_int_from_prefix V4._max_prefixlen p) =? na
  | IPv6Network na _ p, IPv6Address ip _ =>
      Z.land ip (_ip_int_from_prefix V6._max_prefixlen p) =? na
  | _, _ => false
  end.

Definition is_private_v4 (ip : IPAddress) : bool :=
  existsb (fun net => contains net ip) V4._private_networks
  && forallb (fun net => negb (contains net ip))
       V4._private_networks_exceptions.

Definition is_private (ip : IPAddress) : bool :=
  match ip with
  | IPv4Address _ => is_private_v4 ip
  | IPv6Address n _ =>
      match V6.ipv4_mapped n with
      | Some m => is_private_v4 (IPv4Address m)
      | None =>
          existsb (fun net => contains net ip) V6._private_networks
          && forallb (fun net => negb (contains net ip))
               V6._private_networks_exceptions
      end
  end.

Definition is_loopback (ip : IPAddress) : bool :=
  match ip with
  | IPv4Address _ => contains V4._loopback_network ip
  | IPv6Address n _ => n =? 1
  end.

Definition is_multicast (ip : IPAddress) : bool :=
  match ip with
  | IPv4Address _ => contains V4._multicast_network ip
  | IPv6Address _ _ => contains V6._multicast_network ip
  end.

Definition is_unspecified (ip : IPAddress) : bool :=
  match ip with
  | IPv4Address n => n =? 0
  | IPv6Address n _ => n =? 0
  end.

Definition is_reserved (ip : IPAddress) : bool :=
  match ip with
  | IPv4Address _ => contains V4._reserved_network ip
  | IPv6Address _ _ =>
      existsb (fun net => contains net ip) V6._reserved_networks
  end.

(** [ipaddress.ip_address(address)] on a string. *)
Definition ip_address (address : string) : result IPAddress :=
  except_addr_or_mask
    (rbind (V4.IPv4Address_ip address) (fun n => Ok (IPv4Address n)))
    (except_addr_or_mask
       (rbind (V6.IPv6Address_init address)
          (fun '(n, scope_id) => Ok (IPv6Address n scope_id)))
       (Raise ValueError)).

(** [ipaddress.ip_network(address)] on a string, [strict=True]. *)
Definition ip_network (address : string) : result IPNetwork :=
  except_addr_or_mask (V4.IPv4Network_init address)
    (except_addr_or_mask (V6.IPv6Network_init address) (Raise ValueError)).

(** [str(ip)]. *)
Definition str (ip : IPAddress) : string :=
  match ip with
  | IPv4Address n => V4._string_from_ip_int n
  | IPv6Address n scope_id =>
      match scope_id with
      | Some (String c r as id) =>
          V6._string_from_ip_int n +:+ "%" +:+ id
      | _ => V6._string_from_ip_int n
      end
  end.

End ipaddress.

(** ** Python dictionaries

    A [dict] iterates in insertion order.  Assigning to a key that is
    present replaces the value where the key sits; assigning to a new key
    appends; [del] removes the key. *)

Module PyDict.
Section dict.
Context {K V : Type} `{EqDecision K}.

Definition t : Type := list (K * V).

Fixpoint get (d : t) (k : K) : option V :=
  match d with
  | [] => None
  | (k', v) :: d' => if decide (k' = k) then Some v else get d' k
  end.

Fixpoint set (d : t) (k : K) (v : V) : t :=
  match d with
  | [] => [(k, v)]
  | (k', v') :: d' =>
      if decide (k' = k) then (k', v) :: d' else (k', v') :: set d' k v
  end.

Fixpoint del (d : t) (k : K) : t :=
  match d with
  | [] => []
  | (k', v') :: d' =>
      if decide (k' = k) then d' else (k', v') :: del d' k
  end.

Definition keys (d : t) : list K := map fst d.

Definition len (d : t) : Z := Z.of_nat (length d).

(** [dict(pairs)]: later pairs win, first positions stay. *)
Definition of_pairs (pairs : list (K * V)) : t :=
  fold_left (fun d kv => set d (fst kv) (snd kv)) pairs [].

End dict.
End PyDict.

(** ** json: the decoder

    [json.load] as the C scanner of the interpreter runs it, with the
    default hooks.  The functions keep the names of [json/decoder.py]
    and [json/scanner.py]; a text is scanned from the left and what is
    left of it is returned with the value. *)

Module json.

(** A value as the decoder builds it.  The loader never looks at the
    value of a [float]; a [dict] keeps its keys in insertion order. *)
#[local] Unset Elimination Schemes.
Inductive value : Type :=
| JNone
| JBool (b : bool)
| JInt (n : Z)
| JFloat
| JStr (s : string)
| JList (items : list value)
| JDict (members : list (string * value)).
#[local] Set Elimination Schemes.

(** The containers that can be open at once: the scanner enters the
    interpreter's recursion counter once for each, and the limit of 1000
    is reached at the 991st when the decoder is called from
    [NetworkCache.__init__] under [RirSearcher.__init__] at the top
    level of [resolve.py]. *)
Definition MAX_NESTING : nat := 990.

(** [WHITESPACE_STR]. *)
Definition is_whitespace (c : ascii) : bool :=
  Ascii.eqb c " " || Ascii.eqb c "009" || Ascii.eqb c "010"
  || Ascii.eqb c "013".

Fixpoint skip_whitespace (s : string) : string :=
  match s with
  | String c s' => if is_whitespace c then skip_whitespace s' else s
  | EmptyString => EmptyString
  end.

Definition byte (n : Z) : ascii := ascii_of_N (Z.to_N n).

(** [s[n:]]. *)
Definition after (n : nat) (s : string) : string :=
  String.substring n (String.length s - n) s.

(** [chr(ch)] in UTF-8.  An escape can name a surrogate, which the
    decoder lets through: it is written in the three bytes of its
    value. *)
Definition chr (ch : Z) : string :=
  if ch <? 128 then String (byte ch) ""
  else if ch <? 2048 then
    String (byte (192 + ch / 64)) (String (byte (128 + ch mod 64)) "")
  else if ch <? 65536 then
    String (byte (224 + ch / 4096))
      (String (byte (128 + (ch / 64) mod 64))
         (String (byte (128 + ch mod 64)) ""))
  else
    String (byte (240 + ch / 262144))
      (String (byte (128 + (ch / 4096) mod 64))
         (String (byte (128 + (ch / 64) mod 64))
            (String (byte (128 + ch mod 64)) ""))).

(** The four hexadecimal digits of a [\uXXXX] escape. *)
Definition _decode_uXXXX (s : string) : option (Z * string) :=
  match s with
  | String a (String b (String c (String d rest))) =>
      if PyStr.is_hex_digit a && PyStr.is_hex_digit b
         && PyStr.is_hex_digit c && PyStr.is_hex_digit d
      then Some (((PyStr.hex_digit_value a * 16 + PyStr.hex_digit_value b)
                  * 16 + PyStr.hex_digit_value c) * 16
                 + PyStr.hex_digit_value d, rest)
      else None
  | _ => None
  end.

(** [BACKSLASH]. *)
Definition BACKSLASH (esc : ascii) : option ascii :=
  if Ascii.eqb esc "034" then Some "034"%char
  else if Ascii.eqb esc "092" then Some "092"%char
  else if Ascii.eqb esc "/" then Some "/"%char
  else if Ascii.eqb esc "b" then Some "008"%char
  else if Ascii.eqb esc "f" then Some "012"%char
  else if Ascii.eqb esc "n" then Some "010"%char
  else if Ascii.eqb esc "r" then Some "013"%char
  else if Ascii.eqb esc "t" then Some "009"%char
  else None.

(** [scanstring(s, end)] in strict mode, on the text that follows the
    opening quote: the decoded string and the text after the closing
    quote, or [None] for a [JSONDecodeError].  Each step takes at least
    one character, so the length of the text is fuel enough. *)
Fixpoint scanstring (fuel : nat) (s : string) : option (string * string) :=
  match fuel with
  | O => None
  | S fuel' =>
      match s with
      | EmptyString => None
      | String c s' =>
          if Ascii.eqb c "034" then Some (EmptyString, s')
          else if Ascii.eqb c "092" then
            match s' with
            | EmptyString => None
            | String esc s'' =>
                if Ascii.eqb esc "u" then
                  match _decode_uXXXX s'' with
                  | None => None
                  | Some (uni, rest) =>
                      let single :=
                        option_map (fun '(str, r) => (chr uni +:+ str, r))
                          (scanstring fuel' rest) in
                      if (55296 <=? uni) && (uni <=? 56319) then
                        match rest with
                        | String b1 (String b2 rest2) =>
                            if Ascii.eqb b1 "092" && Ascii.eqb b2 "u" then
                              match _decode_uXXXX rest2 with
                              | None => None
                              | Some (uni2, rest3) =>
                                  if (56320 <=? uni2) && (uni2 <=? 57343)
                                  then
                                    option_map
                                      (fun '(str, r) =>
                                         (chr (65536
                                               + ((uni - 55296) * 1024
                                                  + (uni2 - 56320)))
                                          +:+ str, r))
                                      (scanstring fuel' rest3)
                                  else single
                              end
                            else single
                        | _ => single
                        end
                      else single
                  end
                else
                  match BACKSLASH esc with
                  | None => None
                  | Some ch =>
                      option_map (fun '(str, r) => (String ch str, r))
                        (scanstring fuel' s'')
                  end
            end
          else if PyStr.code c <? 32 then None
          else
            option_map (fun '(str, r) => (String c str, r))
              (scanstring fuel' s')
      end
  end.

(** The longest run of ASCII digits at the head of [s], and the rest. *)
Fixpoint span_digits (s : string) : string * string :=
  match s with
  | String c s' =>
      if PyStr.is_digit c
      then let '(d, r) := span_digits s' in (String c d, r)
      else (EmptyString, s)
  | EmptyString => (EmptyString, EmptyString)
  end.

(** [NUMBER_RE], with the ASCII digits that the C scanner takes, and
    the constants: an integer part, then a fraction and an exponent that
    are taken only when they have digits.  A literal with neither is an
    [int], and [int] refuses more than [PyStr.MAX_STR_DIGITS] digits
    with a [ValueError]. *)
Definition match_number (s : string) : result (value * string) :=
  if String.prefix "NaN" s then Ok (JFloat, after 3 s)
  else if String.prefix "Infinity" s then Ok (JFloat, after 8 s)
  else if String.prefix "-Infinity" s then Ok (JFloat, after 9 s)
  else
    let '(negative, s1) :=
      match s with
      | String "-" s' => (true, s')
      | _ => (false, s)
      end in
    match s1 with
    | String c s2 =>
        if PyStr.is_digit c then
          let '(integer, rest) :=
            if Ascii.eqb c "0" then (String c EmptyString, s2)
            else span_digits s1 in
          let '(frac, rest1) :=
            match rest with
            | String "." r =>
                match span_digits r with
                | (EmptyString, _) => (false, rest)
                | (_, r') => (true, r')
                end
            | _ => (false, rest)
            end in
          let '(exp, rest2) :=
            match rest1 with
            | String e r =>
                if Ascii.eqb e "e" || Ascii.eqb e "E" then
                  let r1 :=
                    match r with
                    | String "+" r' => r'
                    | String "-" r' => r'
                    | _ => r
                    end in
                  match span_digits r1 with
                  | (EmptyString, _) => (false, rest1)
                  | (_, r') => (true, r')
                  end
                else (false, rest1)
            | EmptyString => (false, rest1)
            end in
          if frac || exp then Ok (JFloat, rest2)
          else if PyStr.MAX_STR_DIGITS <? PyStr.len integer
          then Raise ValueError
          else
            let n := PyStr.digits_value integer in
            Ok (JInt (if negative then - n else n), rest2)
        else Raise JSONDecodeError
    | EmptyString => Raise JSONDecodeError
    end.

(** [scan_once], with [JSONArray] and [JSONObject] after their first
    look at the text.  [depth] counts the containers that may still be
    opened.  A call on a text is followed, two calls further at the
    latest, by calls on shorter texts only, so twice the length of the
    text, and two, is fuel enough. *)
Fixpoint scan_once (fuel depth : nat) (s : string) {struct fuel}
  : result (value * string) :=
  match fuel with
  | O => Raise RecursionError
  | S fuel' =>
      match s with
      | EmptyString => Raise JSONDecodeError
      | String c s' =>
          if Ascii.eqb c "034" then
            match scanstring (String.length s') s' with
            | Some (str, rest) => Ok (JStr str, rest)
            | None => Raise JSONDecodeError
            end
          else if Ascii.eqb c "{" then
            match depth with
            | O => Raise RecursionError
            | S depth' =>
                match skip_whitespace s' with
                | String "}" rest => Ok (JDict [], rest)
                | s1 =>
                    rbind (object_pairs fuel' depth' s1)
                      (fun '(pairs, rest) =>
                         Ok (JDict (PyDict.of_pairs pairs), rest))
                end
            end
          else if Ascii.eqb c "[" then
            match depth with
            | O => Raise RecursionError
            | S depth' =>
                match skip_whitespace s' with
                | String "]" rest => Ok (JList [], rest)
                | s1 =>
                    rbind (array_items fuel' depth' s1)
                      (fun '(values, rest) => Ok (JList values, rest))
                end
            end
          else if String.prefix "null" s then Ok (JNone, after 4 s)
          else if String.prefix "true" s then Ok (JBool true, after 4 s)
          else if String.prefix "false" s then Ok (JBool false, after 5 s)
          else match_number s
      end
  end
with array_items (fuel depth : nat) (s : string) {struct fuel}
  : result (list value * string) :=
  match fuel with
  | O => Raise RecursionError
  | S fuel' =>
      rbind (scan_once fuel' depth s) (fun '(v, rest) =>
        match skip_whitespace rest with
        | String c rest' =>
            if Ascii.eqb c "]" then Ok ([v], rest')
            else if Ascii.eqb c "," then
              rbind (array_items fuel' depth (skip_whitespace rest'))
                (fun '(values, rest'') => Ok (v :: values, rest''))
            else Raise JSONDecodeError
        | EmptyString => Raise JSONDecodeError
        end)
  end
with object_pairs (fuel depth : nat) (s : string) {struct fuel}
  : result (list (string * value) * string) :=
  match fuel with
  | O => Raise RecursionError
  | S fuel' =>
      match s with
      | String c s' =>
          if Ascii.eqb c "034" then
            match scanstring (String.length s') s' with
            | None => Raise JSONDecodeError
            | Some (key, rest) =>
                match skip_whitespace rest with
                | String ":" rest1 =>
                    rbind (scan_once fuel' depth (skip_whitespace rest1))
                      (fun '(v, rest2) =>
                         match skip_whitespace rest2 with
                         | String c2 rest3 =>
                             if Ascii.eqb c2 "}" then Ok ([(key, v)], rest3)
                             else if Ascii.eqb c2 "," then
                               rbind
                                 (object_pairs fuel' depth
                                    (skip_whitespace rest3))
                                 (fun '(pairs, rest4) =>
                                    Ok ((key, v) :: pairs, rest4))
                             else Raise JSONDecodeError
                         | EmptyString => Raise JSONDecodeError
                         end)
                | _ => Raise JSONDecodeError
                end
            end
          else Raise JSONDecodeError
      | EmptyString => Raise JSONDecodeError
      end
  end.

(** [json.loads(s)]: one value, with nothing but white space around
    it. *)
Definition loads (s : string) : result value :=
  rbind (scan_once (2 * String.length s + 2) MAX_NESTING (skip_whitespace s))
    (fun '(v, rest) =>
       match skip_whitespace rest with
       | EmptyString => Ok v
       | _ => Raise JSONDecodeError
       end).

End json.

(** ** datetime: [fromisoformat]

    [datetime.fromisoformat] as the C module of the interpreter runs
    it, on the UTF-8 bytes of its argument and with the helpers named as
    in [datetime.py].  The C code reads a buffer that ends with a NUL
    byte and tests for that byte where it looks for the end of the
    text. *)

Module isoformat.

Definition bytes (s : string) : list Z := map PyStr.code (PyStr.chars s).

(** The byte at [i]; past the text, the NUL that ends the buffer. *)
Definition byte_at (bs : list Z) (i : Z) : Z :=
  if i <? 0 then 0 else nth (Z.to_nat i) bs 0.

Definition is_digit (b : Z) : bool := (48 <=? b) && (b <=? 57).

(** [parse_digits(ptr, &var, num_digits)], [var] holding [acc]. *)
Fixpoint parse_digits (bs : list Z) (p : Z) (num_digits : nat) (acc : Z)
  : option Z :=
  match num_digits with
  | O => Some acc
  | S n =>
      let b := byte_at bs p in
      if is_digit b then parse_digits bs (p + 1) n (acc * 10 + (b - 48))
      else None
  end.

Definition _is_leap (year : Z) : bool :=
  (year mod 4 =? 0) && (negb (year mod 100 =? 0) || (year mod 400 =? 0)).

Definition _days_before_year (year : Z) : Z :=
  let y := year - 1 in
  y * 365 + y / 4 - y / 100 + y / 400.

Definition _DAYS_IN_MONTH : list Z :=
  [-1; 31; 28; 31; 30; 31; 30; 31; 31; 30; 31; 30; 31].

Definition _DAYS_BEFORE_MONTH : list Z :=
  [-1; 0; 31; 59; 90; 120; 151; 181; 212; 243; 273; 304; 334].

Definition _days_in_month (year month : Z) : Z :=
  if (month =? 2) && _is_leap year then 29
  else nth (Z.to_nat month) _DAYS_IN_MONTH 0.

Definition _days_before_month (year month : Z) : Z :=
  nth (Z.to_nat month) _DAYS_BEFORE_MONTH 0
  + (if (2 <? month) && _is_leap year then 1 else 0).

Definition _ymd2ord (year month day : Z) : Z :=
  _days_before_year year + _days_before_month year month + day.

Definition _isoweek1monday (year : Z) : Z :=
  let firstday := _ymd2ord year 1 1 in
  let firstweekday := (firstday + 6) mod 7 in
  let week1monday := firstday - firstweekday in
  if 3 <? firstweekday then week1monday + 7 else week1monday.

Definition MINYEAR : Z := 1.
Definition MAXYEAR : Z := 9999.

(** The ordinal of 9999-12-31. *)
Definition _MAXORDINAL : Z := 3652059.

(** The first index at or after [idx] and below [len] that holds no
    digit; [len] when there is none. *)
Fixpoint skip_digits (steps : nat) (bs : list Z) (idx len : Z) : Z :=
  match steps with
  | O => idx
  | S n =>
      if (idx <? len) && is_digit (byte_at bs idx)
      then skip_digits n bs (idx + 1) len
      else idx
  end.

(** [_find_isoformat_datetime_separator(dtstr, len)]. *)
Definition _find_isoformat_datetime_separator (bs : list Z) (len : Z)
  : option Z :=
  if len =? 7 then Some 7
  else if byte_at bs 4 =? 45 then
    if byte_at bs 5 =? 87 then
      if len <? 8 then None
      else if (8 <? len) && (byte_at bs 8 =? 45) then
        if len =? 9 then None
        else if (10 <? len) && is_digit (byte_at bs 10) then Some 8
        else Some 10
      else Some 8
    else Some 10
  else if byte_at bs 4 =? 87 then
    let idx := skip_digits (length bs) bs 7 len in
    if idx <? 9 then Some idx
    else if idx mod 2 =? 0 then Some 7
    else Some 8
  else Some 8.

(** [iso_to_ymd], as far as the ordinal of the day; the constructor
    then refuses a day outside the years 1 to 9999. *)
Definition _isoweek_to_ordinal (year week day : Z) : option Z :=
  if negb ((MINYEAR <=? year) && (year <=? MAXYEAR)) then None
  else if negb ((0 <? week) && (week <? 53))
          && negb ((week =? 53)
                   && let first_weekday := _ymd2ord year 1 1 mod 7 in
                      ((first_weekday =? 4)
                       || ((first_weekday =? 3) && _is_leap year)))
  then None
  else if negb ((0 <? day) && (day <? 8)) then None
  else
    let ordinal := _isoweek1monday year + (week - 1) * 7 + (day - 1) in
    if (1 <=? ordinal) && (ordinal <=? _MAXORDINAL) then Some ordinal
    else None.

(** [parse_isoformat_date(dtstr, len)] and the range checks of the
    constructor: the ordinal of the day. *)
Definition _parse_isoformat_date (bs : list Z) (len : Z) : option Z :=
  match parse_digits bs 0 4 0 with
  | None => None
  | Some year =>
      let uses_separator := byte_at bs 4 =? 45 in
      let p := if uses_separator then 5 else 4 in
      if byte_at bs p =? 87 then
        match parse_digits bs (p + 1) 2 0 with
        | None => None
        | Some iso_week =>
            let p := p + 3 in
            if p <? len then
              if uses_separator && negb (byte_at bs p =? 45) then None
              else
                match parse_digits bs (if uses_separator then p + 1 else p)
                        1 0 with
                | None => None
                | Some iso_day => _isoweek_to_ordinal year iso_week iso_day
                end
            else _isoweek_to_ordinal year iso_week 1
        end
      else
        match parse_digits bs p 2 0 with
        | None => None
        | Some month =>
            let p := p + 2 in
            if uses_separator && negb (byte_at bs p =? 45) then None
            else
              match parse_digits bs (if uses_separator then p + 1 else p)
                      2 0 with
              | None => None
              | Some day =>
                  if (MINYEAR <=? year) && (year <=? MAXYEAR)
                     && (1 <=? month) && (month <=? 12)
                     && (1 <=? day) && (day <=? _days_in_month year month)
                  then Some (_ymd2ord year month day)
                  else None
              end
        end
  end.

(** Where the loop of [parse_hh_mm_ss_ff] over hours, minutes and
    seconds ends: with an error, with the function returning, [more]
    telling that the byte last read is not the NUL, or at the fraction
    that starts at [p]. *)
Inductive hms : Type :=
| Failed
| Returned (vals : list Z) (more : bool)
| Fraction (vals : list Z) (p : Z).

Fixpoint hms_loop (todo : nat) (first : bool) (bs : list Z) (p p_end : Z)
    (has_separator : bool) (vals : list Z) : hms :=
  match todo with
  | O => Fraction vals p
  | S todo' =>
      match parse_digits bs p 2 0 with
      | None => Failed
      | Some v =>
          let vals := vals ++ [v] in
          let c := byte_at bs (p + 2) in
          let p := p + 3 in
          let has_separator := if first then c =? 58 else has_separator in
          if p_end <=? p then Returned vals (negb (c =? 0))
          else if has_separator && (c =? 58)
          then hms_loop todo' false bs p p_end has_separator vals
          else if (c =? 46) || (c =? 44) then Fraction vals p
          else if negb has_separator
          then hms_loop todo' false bs (p - 1) p_end has_separator vals
          else Failed
      end
  end.

(** The first index at or after [p] that holds no digit. *)
Fixpoint skip_truncated (steps : nat) (bs : list Z) (p : Z) : Z :=
  match steps with
  | O => p
  | S n => if is_digit (byte_at bs p) then skip_truncated n bs (p + 1) else p
  end.

(** [parse_hh_mm_ss_ff(tstr, tstr_end)] on the bytes from [p] to
    [p_end]: hour, minute, second, microsecond, and whether text is
    left. *)
Definition _parse_hh_mm_ss_ff (bs : list Z) (p p_end : Z)
  : option (Z * Z * Z * Z * bool) :=
  let fields vals us more :=
    Some (nth 0 vals 0, nth 1 vals 0, nth 2 vals 0, us, more) in
  match hms_loop 3 true bs p p_end true [] with
  | Failed => None
  | Returned vals more => fields vals 0 more
  | Fraction vals p =>
      let len_remains := p_end - p in
      let to_parse := if 6 <=? len_remains then 6 else len_remains in
      match parse_digits bs p (Z.to_nat to_parse) 0 with
      | None => None
      | Some microsecond =>
          let microsecond :=
            if to_parse <? 6
            then microsecond
                 * nth (Z.to_nat (to_parse - 1)) [100000; 10000; 1000; 100; 10]
                     0
            else microsecond in
          let p := skip_truncated (length bs) bs (p + to_parse) in
          fields vals microsecond (negb (byte_at bs p =? 0))
      end
  end.

(** The place of the time zone: the first of [Z], [+] and [-], looked
    for from [p] on and below [p_end]. *)
Fixpoint tzinfo_pos (steps : nat) (bs : list Z) (p p_end : Z) : Z :=
  let c := byte_at bs p in
  if (c =? 90) || (c =? 43) || (c =? 45) then p
  else
    match steps with
    | O => p + 1
    | S n => if p + 1 <? p_end then tzinfo_pos n bs (p + 1) p_end else p + 1
    end.

(** [parse_isoformat_time(dtstr, dtlen)] on the bytes from [p] on: the
    fields of the time, whether there is a time zone, and its offset in
    microseconds. *)
Definition _parse_isoformat_time (bs : list Z) (p : Z)
  : option (Z * Z * Z * Z * bool * Z) :=
  let p_end := Z.of_nat (length bs) in
  let tz := tzinfo_pos (length bs) bs p p_end in
  match _parse_hh_mm_ss_ff bs p tz with
  | None => None
  | Some (hour, minute, second, microsecond, more) =>
      if tz =? p_end then
        if more then None
        else Some (hour, minute, second, microsecond, false, 0)
      else if byte_at bs tz =? 90 then
        if byte_at bs (tz + 1) =? 0
        then Some (hour, minute, second, microsecond, true, 0)
        else None
      else
        let tzsign := if byte_at bs tz =? 45 then -1 else 1 in
        match _parse_hh_mm_ss_ff bs (tz + 1) p_end with
        | None => None
        | Some (tzhour, tzminute, tzsecond, tzmicrosecond, more) =>
            if more then None
            else
              let tzoffset :=
                tzsign * (tzhour * 3600 + tzminute * 60 + tzsecond) in
              Some (hour, minute, second, microsecond, true,
                    if tzoffset =? 0 then 0
                    else tzoffset * 1000000 + tzsign * tzmicrosecond)
        end
  end.

(** The characters of a text, each with its bytes, the lead byte
    telling how many. *)
Fixpoint utf8_chars (fuel : nat) (bs : list Z) : list (list Z) :=
  match fuel, bs with
  | S fuel', b :: _ =>
      let k := if b <? 128 then 1%nat else if b <? 224 then 2%nat
               else if b <? 240 then 3%nat else 4%nat in
      firstn k bs :: utf8_chars fuel' (skipn k bs)
  | _, _ => []
  end.

Definition is_surrogate (ch : list Z) : bool :=
  match ch with
  | [b0; b1; _] => (b0 =? 237) && (160 <=? b1)
  | _ => false
  end.

(** [_sanitize_isoformat_str]: a text of fewer than seven characters is
    refused; the first surrogate found at the places 7, 8 and 10, where
    the separator can stand, becomes [T].  A surrogate that is left
    cannot be encoded, which [fromisoformat] takes for an invalid
    text. *)
Definition _sanitize_isoformat_str (bs : list Z) : option (list Z) :=
  let chars := utf8_chars (length bs) bs in
  if (length chars <? 7)%nat then None
  else
    let surrogate_at pos := is_surrogate (nth pos chars []) in
    let replaced pos := concat (firstn pos chars ++ [[84]] ++ skipn (S pos) chars) in
    let clean :=
      if surrogate_at 7%nat then replaced 7%nat
      else if surrogate_at 8%nat then replaced 8%nat
      else if surrogate_at 10%nat then replaced 10%nat
      else bs in
    if existsb is_surrogate (utf8_chars (length clean) clean) then None
    else Some clean.

(** The last instant that a [datetime] holds, 9999-12-31T23:59:59.999999,
    in microseconds from 0001-01-01T00:00:00. *)
Definition MAX : Z := _MAXORDINAL * 86400 * 1000000 - 1.

(** [datetime.fromisoformat(date_string)]: [None] for a [ValueError];
    otherwise the instant that the date and the time name, in
    microseconds from 0001-01-01T00:00:00, and whether the [datetime] is
    aware of a time zone. *)
Definition fromisoformat (date_string : string) : option (Z * bool) :=
  match _sanitize_isoformat_str (bytes date_string) with
  | None => None
  | Some bs =>
      let len := Z.of_nat (length bs) in
      match _find_isoformat_datetime_separator bs len with
      | None => None
      | Some separator_location =>
          match _parse_isoformat_date bs separator_location with
          | None => None
          | Some ordinal =>
              let time :=
                if separator_location <? len then
                  let b := byte_at bs separator_location in
                  let p :=
                    separator_location
                    + (if b <? 128 then 1
                       else if (224 <=? b) && (b <? 240) then 3
                       else if 240 <=? b then 4
                       else 2) in
                  _parse_isoformat_time bs p
                else Some (0, 0, 0, 0, false, 0) in
              match time with
              | None => None
              | Some (hour, minute, second, microsecond, aware, offset) =>
                  if (hour <=? 23) && (minute <=? 59) && (second <=? 59)
                     && (- 86400000000 <? offset) && (offset <? 86400000000)
                  then Some (((ordinal - 1) * 86400 + hour * 3600
                              + minute * 60 + second) * 1000000
                             + microsecond, aware)
                  else None
              end
          end
      end
  end.

End isoformat.

(** ** cache.py: constants and data *)

Definition DEFAULT_CACHE_FILE : string := "ip_networks_cache.json".
Definition NOT_FOUND_FILE : string := "not_found_list.txt".
Definition CACHE_TIMEOUT_DAYS : Z := 14.

(** A naive [datetime] is a point on the proleptic time line, counted in
    microseconds from 0001-01-01T00:00:00; the ISO-8601 text that
    [isoformat] writes and [fromisoformat] reads back is identified with
    the instant it names. *)
Abbreviation datetime := Z.

(** [relativedelta(days=+n)], as added to a naive [datetime]. *)
Definition relativedelta_days (n : Z) : Z := n * 86400 * 1000000.

(** The attributes of a [ResolvedNetwork] instance. *)
Module ResolvedNetwork.
Record t : Type := mk {
  address : string;
  cidr : string;
  description : string;
  name : string;
  country : string;
  registry : string;
  fqdn : string
}.

(** [ResolvedNetwork(address=..., description=...)]: the other
    parameters default to the empty string. *)
Definition well_known (address description : string) : t :=
  mk address "" description "" "" "" "".
End ResolvedNetwork.

#[global] Instance ResolvedNetwork_eq_dec : EqDecision ResolvedNetwork.t.
Proof. solve_decision. Defined.

(** One value of the [cache] dictionary, indexed by the [JsonFields]
    constants.  [set] writes all six fields; the loader reads [CREATED]
    with [dict.get], so the field may be missing. *)
Module JsonFields.
Record entry : Type := mk {
  NAME : string;
  DESCRIPTION : string;
  COUNTRY : string;
  REGISTRY : string;
  FQDN : string;
  CREATED : option datetime
}.
End JsonFields.

#[global] Instance entry_eq_dec : EqDecision JsonFields.entry.
Proof. solve_decision. Defined.

(** ** The outside world *)

(** What has been written to a file, in order.  [json.dump] opens the
    file for writing and leaves one JSON document, the cache of that
    moment with its time stamps as instants; [write] in append mode adds
    text, as UTF-8 bytes, at the end.  A file from another hand is the
    text it holds. *)
Inductive Chunk : Type :=
| JsonDoc (members : list (string * JsonFields.entry))
| Txt (text : string).

Abbreviation File := (list Chunk).

(** A value of the WHOIS response: a string or [None]. *)
Inductive pyval : Type :=
| PyNone
| PyStr (s : string).

(** [str(v)]. *)
Definition py_str (v : pyval) : string :=
  match v with
  | PyNone => "None"
  | PyStr s => s
  end.

(** One element of [response["nets"]]. *)
Module Net.
Record t : Type := mk {
  cidr : pyval;
  name : pyval;
  description : pyval;
  country : pyval
}.
End Net.

(** The dictionary [lookup_whois] returns. *)
Module Response.
Record t : Type := mk {
  nets : list Net.t;
  asn_cidr : pyval;
  asn_description : pyval;
  asn_country_code : pyval;
  asn_registry : pyval
}.
End Response.

(** The outcome of one call of [whois.lookup_whois()]. *)
Inductive WhoisReply : Type :=
| WhoisResponse (response : Response.t)
| TimeoutError
| HTTPLookupError
| WhoisLookupError
| ASNParseError
| Uncaught (e : exn).

(** The collaborators.  [IPWhois host] is [ipwhois.IPWhois(host)]: the
    constructor raises, as the library does with [IPDefinedError] for an
    address of a block it lists as defined, or it builds the object,
    given as the answers of its [lookup_whois()] by the number of the
    query in the run.  A query returns a response, raises one of the
    four exceptions that [single_lookup] handles, or raises another one,
    [Uncaught].  [gethostbyaddr host] is [None] when the resolver raises
    [socket.herror]. *)
Record World : Type := {
  IPWhois : string -> result (nat -> WhoisReply);
  gethostbyaddr : string -> option string
}.

(** The outcome of the [n]-th query of the run when it is made for
    [host], the construction of the object included: a constructor that
    raises leaves its exception, which nothing handles. *)
Definition lookup_whois (w : World) (n : nat) (host : string) : WhoisReply :=
  match IPWhois w host with
  | Ok whois => whois n
  | Raise e => Uncaught e
  end.

Inductive Event : Type :=
| EvWhois (host : string)
| EvSleep (seconds : Z)
| EvGethostbyaddr (host : string).

#[global] Instance Event_eq_dec : EqDecision Event.
Proof. solve_decision. Defined.

(** ** The state

    The attributes of the one [NetworkCache] and the one [RirSearcher] of
    a run, and what the run can observe or change outside itself.  The
    two classes declare their containers as class attributes; with one
    instance of each per process they behave as instance attributes. *)
Record State : Type := mkState {
  (* NetworkCache *)
  not_found : list string;
  cache : list (string * JsonFields.entry);
  net_to_cidr : list (ipaddress.IPNetwork * string);
  (* RirSearcher *)
  resolved_ip_list : list (option ResolvedNetwork.t);
  raw_ip_list : list string;
  start_cache_size : Z;
  (* outside *)
  files : gmap string File;
  clock : datetime;
  whois_calls : nat;
  trace : list Event
}.

Definition with_not_found (v : list string) (s : State) : State :=
  mkState v (cache s) (net_to_cidr s) (resolved_ip_list s) (raw_ip_list s)
    (start_cache_size s) (files s) (clock s) (whois_calls s) (trace s).

Definition with_cache (v : list (string * JsonFields.entry)) (s : State)
  : State :=
  mkState (not_found s) v (net_to_cidr s) (resolved_ip_list s) (raw_ip_list s)
    (start_cache_size s) (files s) (clock s) (whois_calls s) (trace s).

Definition with_net_to_cidr (v : list (ipaddress.IPNetwork * string))
  (s : State) : State :=
  mkState (not_found s) (cache s) v (resolved_ip_list s) (raw_ip_list s)
    (start_cache_size s) (files s) (clock s) (whois_calls s) (trace s).

Definition with_resolved_ip_list (v : list (option ResolvedNetwork.t))
  (s : State)
  : State :=
  mkState (not_found s) (cache s) (net_to_cidr s) v (raw_ip_list s)
    (start_cache_size s) (files s) (clock s) (whois_calls s) (trace s).

Definition with_start_cache_size (v : Z) (s : State) : State :=
  mkState (not_found s) (cache s) (net_to_cidr s) (resolved_ip_list s)
    (raw_ip_list s) v (files s) (clock s) (whois_calls s) (trace s).

Definition with_files (v : gmap string File) (s : State) : State :=
  mkState (not_found s) (cache s) (net_to_cidr s) (resolved_ip_list s)
    (raw_ip_list s) (start_cache_size s) v (clock s) (whois_calls s) (trace s).

Definition with_clock (v : datetime) (s : State) : State :=
  mkState (not_found s) (cache s) (net_to_cidr s) (resolved_ip_list s)
    (raw_ip_list s) (start_cache_size s) (files s) v (whois_calls s) (trace s).

Definition with_whois_calls (v : nat) (s : State) : State :=
  mkState (not_found s) (cache s) (net_to_cidr s) (resolved_ip_list s)
    (raw_ip_list s) (start_cache_size s) (files s) (clock s) v (trace s).

Definition with_trace (v : list Event) (s : State) : State :=
  mkState (not_found s) (cache s) (net_to_cidr s) (resolved_ip_list s)
    (raw_ip_list s) (start_cache_size s) (files s) (clock s) (whois_calls s) v.

(** The state after one WHOIS query for [host]. *)
Definition queried (host : string) (s : State) : State :=
  with_trace (trace s ++ [EvWhois host])
    (with_whois_calls (S (whois_calls s)) s).

(** The state after [time.sleep(seconds)]. *)
Definition slept (seconds : Z) (s : State) : State :=
  with_trace (trace s ++ [EvSleep seconds])
    (with_clock (clock s + seconds * 1000000) s).

(** The state after one reverse-DNS query for [host]. *)
Definition reversed (host : string) (s : State) : State :=
  with_trace (trace s ++ [EvGethostbyaddr host]) s.

(** A process that has just started: the class attributes of
    [NetworkCache] and [RirSearcher] are empty. *)
Definition new_process (fs : gmap string File) (now : datetime) : State :=
  mkState [] [] [] [] [] 0 fs now 0%nat [].

(** ** Methods: state and exceptions *)

Definition M (A : Type) : Type := State -> result A * State.

Definition ret {A} (a : A) : M A := fun s => (Ok a, s).

Definition raise {A} (e : exn) : M A := fun s => (Raise e, s).

Definition bind {A B} (m : M A) (k : A -> M B) : M B :=
  fun s =>
    match m s with
    | (Ok a, s') => k a s'
    | (Raise e, s') => (Raise e, s')
    end.

Definition lift {A} (r : result A) : M A := fun s => (r, s).

Definition gets {A} (f : State -> A) : M A := fun s => (Ok (f s), s).

Definition modify (f : State -> State) : M unit := fun s => (Ok tt, f s).

Notation "'let*' x := c 'in' k" := (bind c (fun x => k))
  (at level 10, x name, c at level 100, k at level 200, only parsing).
Notation "'let*' ' p := c 'in' k" := (bind c (fun x => let 'p := x in k))
  (at level 10, p pattern, c at level 100, k at level 200, only parsing).
Notation "c ;;; k" := (bind c (fun _ => k))
  (at level 100, k at level 200, right associativity, only parsing).

(** [for x in l: body x]. *)
Fixpoint for_each {A} (l : list A) (body : A -> M unit) : M unit :=
  match l with
  | [] => ret tt
  | x :: l' => bind (body x) (fun _ => for_each l' body)
  end.

(** ** cache.py: [NetworkCache] *)

Module NetworkCache.

(** What stands in a file: the last document that [json.dump] left,
    if any, and the text added since. *)
Definition contents (f : File)
  : option (list (string * JsonFields.entry)) * string :=
  fold_left
    (fun '(doc, text) chunk =>
       match chunk with
       | JsonDoc members => (Some members, EmptyString)
       | Txt more => (doc, text +:+ more)
       end)
    f (None, EmptyString).

(** What [json.load] returns: the cache that [json.dump] wrote, read
    back into a [dict], or the value of a text. *)
Inductive loaded : Type :=
| Cache (d : list (string * JsonFields.entry))
| Value (v : json.value).

(** [json.load(cachedata)] on a file opened as UTF-8 text.  A document
    of [json.dump] is ASCII and stands alone: white space may follow it,
    anything else is extra data. *)
Definition json_load (f : File) : result loaded :=
  let '(doc, text) := contents f in
  match PyStr.code_points text with
  | None => Raise UnicodeDecodeError
  | Some _ =>
      match doc with
      | Some members =>
          match json.skip_whitespace text with
          | EmptyString => Ok (Cache (PyDict.of_pairs members))
          | _ => Raise JSONDecodeError
          end
      | None => rbind (json.loads text) (fun v => Ok (Value v))
      end
  end.

(** The first loop of [__init__]: the keys to delete, in dictionary
    order. *)
Fixpoint collect_stale (now : datetime)
    (d : list (string * JsonFields.entry)) : list string :=
  match d with
  | [] => []
  | (entry, fields) :: d' =>
      match JsonFields.CREATED fields with
      | None => entry :: collect_stale now d'
      | Some str_date =>
          let expiry_date :=
            str_date + relativedelta_days CACHE_TIMEOUT_DAYS in
          if expiry_date <=? now then entry :: collect_stale now d'
          else collect_stale now d'
      end
  end.

(** [{ipaddress.ip_network(CIDR): CIDR for CIDR in keys}]: the first key
    that does not parse raises out of the comprehension. *)
Fixpoint build_index (acc : list (ipaddress.IPNetwork * string))
    (keys : list string) : result (list (ipaddress.IPNetwork * string)) :=
  match keys with
  | [] => Ok acc
  | CIDR :: keys' =>
      match ipaddress.ip_network CIDR with
      | Ok net => build_index (PyDict.set acc net CIDR) keys'
      | Raise e => Raise e
      end
  end.

(** The body of the first loop on a value [fields] of a decoded text:
    whether the key is stale.  [get] is a method of [dict] alone,
    [fromisoformat] takes a [str] alone, the sum can leave the years
    that a [datetime] holds, and an aware [datetime] does not compare
    with [now], which is naive. *)
Definition stale (now : datetime) (fields : json.value) : result bool :=
  match fields with
  | json.JDict members =>
      match PyDict.get members "created" with
      | None | Some json.JNone => Ok true
      | Some (json.JStr str_date) =>
          match isoformat.fromisoformat str_date with
          | None => Raise ValueError
          | Some (date, aware) =>
              let expiry_date :=
                date + relativedelta_days CACHE_TIMEOUT_DAYS in
              if isoformat.MAX <? expiry_date then Raise OverflowError
              else if aware then Raise TypeError
              else Ok (expiry_date <=? now)
          end
      | Some _ => Raise TypeError
      end
  | _ => Raise AttributeError
  end.

(** The first loop on a decoded [dict]. *)
Fixpoint dict_stale_keys (now : datetime) (d : list (string * json.value))
  : result (list string) :=
  match d with
  | [] => Ok []
  | (entry, fields) :: d' =>
      rbind (stale now fields) (fun is_stale =>
      rbind (dict_stale_keys now d') (fun stale_keys =>
      Ok (if is_stale then entry :: stale_keys else stale_keys)))
  end.

(** [self.cache[entry]] when the cache is a [list]: an index is an
    [int], a [bool] included, and counts from the end when negative. *)
Definition list_getitem (cache : list json.value) (entry : json.value)
  : result json.value :=
  let item i :=
    let n := Z.of_nat (length cache) in
    let i := if i <? 0 then i + n else i in
    if (0 <=? i) && (i <? n)
    then Ok (nth (Z.to_nat i) cache json.JNone)
    else Raise IndexError in
  match entry with
  | json.JInt i => item i
  | json.JBool b => item (if b then 1 else 0)
  | _ => Raise TypeError
  end.

(** The first loop on a decoded [list], whose items are the entries. *)
Fixpoint list_loop (now : datetime) (entries cache : list json.value)
  : result unit :=
  match entries with
  | [] => Ok tt
  | entry :: entries' =>
      rbind (list_getitem cache entry) (fun fields =>
      rbind (stale now fields) (fun _ => list_loop now entries' cache))
  end.

(** The two loops of [__init__] on the value of a text: what stays of
    it.  Only a [dict] gets further.  A [list] gets through the first
    loop when it is empty, an item that is an index naming an item that
    is a [dict]; [keys] is then missing, as on the empty [str].  A
    character does not index a [str], and the other values do not
    iterate. *)
Definition prune (now : datetime) (v : json.value)
  : result (list (string * json.value)) :=
  match v with
  | json.JDict d =>
      rbind (dict_stale_keys now d) (fun stale_keys =>
      Ok (fold_left PyDict.del stale_keys d))
  | json.JList items =>
      rbind (list_loop now items items) (fun _ => Raise AttributeError)
  | json.JStr EmptyString => Raise AttributeError
  | _ => Raise TypeError
  end.

(** An entry as [set] writes it: the six fields and no other, the
    first five of them strings. *)
Definition entry_of (fields : json.value) : option JsonFields.entry :=
  match fields with
  | json.JDict members =>
      match PyDict.get members "name", PyDict.get members "description",
            PyDict.get members "country", PyDict.get members "registry",
            PyDict.get members "fqdn", PyDict.get members "created" with
      | Some (json.JStr name), Some (json.JStr description),
        Some (json.JStr country), Some (json.JStr registry),
        Some (json.JStr fqdn), Some (json.JStr created) =>
          if PyDict.len members =? 6 then
            option_map
              (fun '(date, _) =>
                 JsonFields.mk name description country registry fqdn
                   (Some date))
              (isoformat.fromisoformat created)
          else None
      | _, _, _, _, _, _ => None
      end
  | _ => None
  end.

Fixpoint entries_of (d : list (string * json.value))
  : option (list (string * JsonFields.entry)) :=
  match d with
  | [] => Some []
  | (CIDR, fields) :: d' =>
      match entry_of fields, entries_of d' with
      | Some e, Some entries => Some ((CIDR, e) :: entries)
      | _, _ => None
      end
  end.

(** [NetworkCache(cache_file)].  On the value of a text the loops run
    as Python runs them on any value; what stays of a [dict] then has
    to be entries as [set] writes them to enter the state. *)
Definition __init__ (cache_file : string) : M unit :=
  let* fs := gets files in
  match fs !! cache_file with
  | None => ret tt
  | Some f =>
      match json_load f with
      | Raise JSONDecodeError => ret tt
      | Raise e => raise e
      | Ok (Value v) =>
          let* now := gets clock in
          let* kept := lift (prune now v) in
          match entries_of kept with
          | Some d =>
              modify (with_cache d) ;;;
              let* index := lift (build_index [] (PyDict.keys d)) in
              modify (with_net_to_cidr index)
          | None =>
              lift (build_index [] (PyDict.keys kept)) ;;;
              raise Unmodelled
          end
      | Ok (Cache loaded) =>
          modify (with_cache loaded) ;;;
          let* now := gets clock in
          let stale_keys := collect_stale now loaded in
          modify (fun s =>
            with_cache (fold_left PyDict.del stale_keys (cache s)) s) ;;;
          let* d := gets cache in
          let* index := lift (build_index [] (PyDict.keys d)) in
          modify (with_net_to_cidr index)
      end
  end.

(** [save_cache(cache_file)]. *)
Definition save_cache (cache_file : string) : M unit :=
  modify (fun s =>
    with_files (<[cache_file := [JsonDoc (cache s)]]> (files s)) s).

(** [save_not_found()]. *)
Definition save_not_found : M unit :=
  let* queue := gets not_found in
  if Z.of_nat (length queue) =? 0 then ret tt
  else
    modify (fun s =>
      with_files
        (<[NOT_FOUND_FILE :=
             (default [] (files s !! NOT_FOUND_FILE)
              ++ [Txt (PyStr.join (String "010" "") queue)])%list]>
           (files s)) s) ;;;
    modify (with_not_found []).

(** [set(network, name, description, country, registry, fqdn)]. *)
Definition set (network name description country registry fqdn : string)
  : M unit :=
  let* now := gets clock in
  modify (fun s =>
    with_cache
      (PyDict.set (cache s) network
         (JsonFields.mk name description country registry fqdn (Some now)))
      s) ;;;
  match ipaddress.ip_network network with
  | Ok net =>
      modify (fun s =>
        with_net_to_cidr (PyDict.set (net_to_cidr s) net network) s)
  | Raise e => if is_ValueError e then ret tt else raise e
  end.

(** [get_network(address, network)], through [_get]: a [KeyError] when
    [network] is not a key of the cache. *)
Definition get_network (address network : string)
  : M ResolvedNetwork.t :=
  let* d := gets cache in
  match PyDict.get d network with
  | None => raise KeyError
  | Some e =>
      ret (ResolvedNetwork.mk address network
             (JsonFields.DESCRIPTION e) (JsonFields.NAME e)
             (JsonFields.COUNTRY e) (JsonFields.REGISTRY e)
             (JsonFields.FQDN e))
  end.

(** The scan of [in_cache] over the index, in insertion order. *)
Fixpoint first_match (index : list (ipaddress.IPNetwork * string))
    (address : ipaddress.IPAddress) : option string :=
  match index with
  | [] => None
  | (net, CIDR) :: index' =>
      if ipaddress.contains net address then Some CIDR
      else first_match index' address
  end.

(** [in_cache(address)]. *)
Definition in_cache (address : ipaddress.IPAddress) : M (option string) :=
  let* index := gets net_to_cidr in
  ret (first_match index address).

End NetworkCache.

(** ** lookup.py: constants *)

Definition RETRY_COUNT_MAX : Z := 3.
Definition SLEEP_TIME : Z := 2.
Definition SLEEP_INTERVAL : Z := 10.
Definition CACHE_SAVE_INTERVAL : Z := 100.
Definition TIMEOUT_SLEEP : Z := 10.

Definition ReservedNetNames : list string := ["IANA-BLK"].

Module Descriptions.
Definition PRIVATE_IP_DESCR : string := "Private (RFC 1918 or APIPA) range".
Definition LOOPBACK_IP_DESCR : string := "Loopback range".
Definition MCAST_IP_DESCR : string := "Multicast range".
Definition RSVD_IP_DESCR : string := "Reserved IP range".
Definition INVALID_IP_DESCR : string := "Invalid IP Address".
End Descriptions.

(** [x in l] for strings. *)
Definition str_in (x : string) (l : list string) : bool :=
  existsb (String.eqb x) l.

(** [str(v).replace("\n", " ")]. *)
Definition one_line (v : pyval) : string :=
  PyStr.replace_char "010" " " (py_str v).

(** ** lookup.py: [RirSearcher] *)

Module RirSearcher.
Section world.
Variable w : World.

(** [whois.lookup_whois()] on the object [whois] built for [host]. *)
Definition whois_query (whois : nat -> WhoisReply) (host : string)
  : M WhoisReply :=
  fun s => (Ok (whois (whois_calls s)), queried host s).

(** [time.sleep(seconds)]. *)
Definition sleep (seconds : Z) : M unit :=
  fun s => (Ok tt, slept seconds s).

(** [socket.gethostbyaddr(host)[0]], [None] standing for
    [socket.herror]. *)
Definition rdns_query (host : string) : M (option string) :=
  fun s => (Ok (gethostbyaddr w host), reversed host s).

(** [__init__(cache_file_name=...)], without an address file. *)
Definition __init__ (cache_file_name : string) : M unit :=
  NetworkCache.__init__ cache_file_name ;;;
  let* d := gets cache in
  modify (with_start_cache_size (PyDict.len d)).

(** [_check_known_nets(address)]. *)
Definition _check_known_nets (address : string)
  : option ipaddress.IPAddress * option ResolvedNetwork.t :=
  let host_addr := hd "" (PyStr.split "/" address) in
  match ipaddress.ip_address host_addr with
  | Raise _ =>
      (None, Some (ResolvedNetwork.well_known address
                     Descriptions.INVALID_IP_DESCR))
  | Ok ip =>
      if ipaddress.is_private ip then
        (None, Some (ResolvedNetwork.well_known address
                       Descriptions.PRIVATE_IP_DESCR))
      else if ipaddress.is_loopback ip then
        (None, Some (ResolvedNetwork.well_known address
                       Descriptions.LOOPBACK_IP_DESCR))
      else if ipaddress.is_multicast ip then
        (None, Some (ResolvedNetwork.well_known address
                       Descriptions.MCAST_IP_DESCR))
      else if ipaddress.is_unspecified ip || ipaddress.is_reserved ip then
        (None, Some (ResolvedNetwork.well_known address
                       Descriptions.RSVD_IP_DESCR))
      else (Some ip, None)
  end.

(** [self.cache.not_found.append(address)]. *)
Definition not_found_append (address : string) : M unit :=
  modify (fun s => with_not_found (not_found s ++ [address])%list s).

(** The retry loop of [single_lookup].  The loop runs while
    [retry_count < RETRY_COUNT_MAX] and [retry_count] grows by one on
    each iteration that does not leave it, so the recursion is on the
    attempts still allowed, [RETRY_COUNT_MAX - retry_count].  The
    result is the final [retry_count] and [response], [None] being
    the empty dictionary.  An exception that neither [except] clause
    names leaves the loop and the method. *)
Fixpoint whois_loop (whois : nat -> WhoisReply) (attempts_left : nat)
    (host : string) (retry_count : Z) : M (Z * option Response.t) :=
  match attempts_left with
  | O => ret (retry_count, None)
  | S attempts_left' =>
      let* reply := whois_query whois host in
      match reply with
      | WhoisResponse response => ret (retry_count, Some response)
      | TimeoutError =>
          sleep TIMEOUT_SLEEP ;;;
          whois_loop whois attempts_left' host (retry_count + 1)
      | HTTPLookupError | WhoisLookupError | ASNParseError =>
          ret (retry_count, None)
      | Uncaught e => raise e
      end
  end.

(** The sub-blocks to cache: [asn_cidr], or the comma-separated list
    of the first net when [asn_cidr] is [None] or ["NA"]. *)
Definition subnets_of (response : Response.t) : result (list string) :=
  let from_nets :=
    match Response.nets response with
    | [] => Raise IndexError
    | n :: _ =>
        match Net.cidr n with
        | PyNone => Raise AttributeError
        | PyStr c => Ok (PyStr.split "," (PyStr.remove_char " " c))
        end
    end in
  match Response.asn_cidr response with
  | PyNone => from_nets
  | PyStr c => if String.eqb c "NA" then from_nets else Ok [c]
  end.

(** [len(host_and_mask) == 1 or int(host_and_mask[1]) == 32], for
    [host_and_mask = address.split("/")]. *)
Definition is_single_host (address : string) : result bool :=
  match PyStr.split "/" address with
  | _ :: mask :: _ => rbind (PyStr.int mask) (fun n => Ok (n =? 32))
  | _ => Ok true
  end.

(** Lines 155-166 of [single_lookup]: [net_cidr], [net_name],
    [net_description], [net_country] and [net_registry], from the
    first net, or from the ASN fields when there is no net. *)
Definition net_fields (response : Response.t)
  : string * string * string * string * string :=
  let net_registry := one_line (Response.asn_registry response) in
  match Response.nets response with
  | n :: _ =>
      (one_line (Net.cidr n), one_line (Net.name n),
       one_line (Net.description n), one_line (Net.country n),
       net_registry)
  | [] =>
      (one_line (Response.asn_cidr response), "",
       one_line (Response.asn_description response),
       one_line (Response.asn_country_code response),
       net_registry)
  end.

(** Lines 167-174: [net_rdns_fqdn].  Reverse DNS is asked for a bare
    address or a [/32]; [socket.herror] leaves the empty string. *)
Definition reverse_dns (address : string) : M string :=
  let host_and_mask := PyStr.split "/" address in
  let* single_host := lift (is_single_host address) in
  if single_host then
    let* found := rdns_query (hd "" host_and_mask) in
    ret (default "" found)
  else ret "".

(** Lines 182-195: unless the name is reserved, every sub-block goes
    into the cache, which is then saved when [persist] is set. *)
Definition cache_subnets (persist : bool) (response : Response.t)
    (net_name net_description net_country net_registry
       net_rdns_fqdn : string) : M unit :=
  if negb (str_in net_name ReservedNetNames) then
    let* subnets := lift (subnets_of response) in
    for_each subnets (fun net =>
      NetworkCache.set net net_name net_description
        net_country net_registry net_rdns_fqdn) ;;;
    if persist then
      NetworkCache.save_cache DEFAULT_CACHE_FILE ;;;
      NetworkCache.save_not_found
    else ret tt
  else ret tt.

(** Lines 154-197 of [single_lookup]: what it does with a response
    that is not empty. *)
Definition on_response (address : string) (persist : bool)
    (response : Response.t)
  : M (bool * bool * bool * option ResolvedNetwork.t) :=
  let '(net_cidr, net_name, net_description, net_country, net_registry) :=
    net_fields response in
  let* net_rdns_fqdn := reverse_dns address in
  let resolved_net :=
    ResolvedNetwork.mk address net_cidr net_description
      net_name net_country net_registry net_rdns_fqdn in
  cache_subnets persist response net_name net_description net_country
    net_registry net_rdns_fqdn ;;;
  ret (false, false, false, Some resolved_net).

(** [single_lookup(address, persist)]: the flags [known_net],
    [cached], [error] and the resolved entry.  A cache hit needs a
    CIDR that is not the empty string, [if net := ...] testing its
    truth. *)
Definition single_lookup (address : string) (persist : bool)
  : M (bool * bool * bool * option ResolvedNetwork.t) :=
  match _check_known_nets address with
  | (_, Some resolved_net) => ret (true, false, false, Some resolved_net)
  | (None, None) => raise AttributeError
  | (Some ip, None) =>
      let* hit := NetworkCache.in_cache ip in
      match hit with
      | Some (String c net' as net) =>
          let* data := NetworkCache.get_network address net in
          ret (false, true, false, Some data)
      | _ =>
          let* whois := lift (IPWhois w (ipaddress.str ip)) in
          let* '(retry_count, response) :=
            whois_loop whois (Z.to_nat RETRY_COUNT_MAX)
              (ipaddress.str ip) 0 in
          match response with
          | None =>
              not_found_append address ;;;
              ret (false, false, true, None)
          | Some response =>
              if retry_count =? RETRY_COUNT_MAX then
                not_found_append address ;;;
                ret (false, false, true, None)
              else on_response address persist response
          end
      end
  end.

(** [self.resolved_ip_list.append(resolved_net)]: the fourth component
    of the tuple goes into the list as it is. *)
Definition resolved_append (resolved_net : option ResolvedNetwork.t)
  : M unit :=
  modify (fun s =>
    with_resolved_ip_list (resolved_ip_list s ++ [resolved_net])%list s).

(** The [while] loop of [search_list]: [ip_list.pop(0)] until the list
    is empty.  The result is the pair of counters [cache_hits] and
    [lookups]. *)
Fixpoint search_loop (ip_list : list string) (cache_hits lookups : Z)
  : M (Z * Z) :=
  match ip_list with
  | [] => ret (cache_hits, lookups)
  | address :: ip_list' =>
      let* '(known_net, cached, error, resolved_net) :=
        single_lookup address false in
      if known_net then
        resolved_append resolved_net ;;;
        search_loop ip_list' cache_hits lookups
      else if cached then
        resolved_append resolved_net ;;;
        search_loop ip_list' (cache_hits + 1) lookups
      else
        let lookups := lookups + 1 in
        if error then
          not_found_append address ;;;
          search_loop ip_list' cache_hits lookups
        else
          (if lookups mod SLEEP_INTERVAL =? 0 then sleep SLEEP_TIME
           else ret tt) ;;;
          (if lookups mod CACHE_SAVE_INTERVAL =? 0
           then NetworkCache.save_cache DEFAULT_CACHE_FILE
           else ret tt) ;;;
          resolved_append resolved_net ;;;
          search_loop ip_list' cache_hits lookups
  end.

(** [search_list()]. *)
Definition search_list : M (Z * Z) :=
  let* ip_list := gets raw_ip_list in
  let* counters := search_loop ip_list 0 0 in
  let* d := gets cache in
  let* start := gets start_cache_size in
  (if start <? PyDict.len d
   then NetworkCache.save_cache DEFAULT_CACHE_FILE
   else ret tt) ;;;
  NetworkCache.save_not_found ;;;
  ret counters.

End world.
End RirSearcher.

(** ** Vocabulary of the statements *)

(** What the specification calls an expired entry at [now]: the [created]
    stamp is missing, or [created + 14 days <= now]. *)
Definition expired (now : datetime) (fields : JsonFields.entry) : bool :=
  match JsonFields.CREATED fields with
  | None => true
  | Some created => created + relativedelta_days 14 <=? now
  end.

(** The entries of [d] that are not expired at [now], in order. *)
Definition unexpired (now : datetime) (d : list (string * JsonFields.entry))
  : list (string * JsonFields.entry) :=
  List.filter (fun kv => negb (expired now (snd kv))) d.

(** A key that [ipaddress.ip_network] accepts. *)
Definition parses (CIDR : string) : Prop :=
  exists net, ipaddress.ip_network CIDR = Ok net.

(** [address] is in no indexed network. *)
Definition uncovered (index : list (ipaddress.IPNetwork * string))
    (address : ipaddress.IPAddress) : Prop :=
  forall net CIDR,
    In (net, CIDR) index -> ipaddress.contains net address = false.

(** The first [k] WHOIS queries made from [s] for [host] all time out. *)
Definition timeouts (w : World) (host : string) (s : State) (k : nat) : Prop :=
  forall i, (i < k)%nat ->
    lookup_whois w (whois_calls s + i)%nat host = TimeoutError.

(** The query errors that [single_lookup] catches and does not retry. *)
Definition non_retryable (reply : WhoisReply) : Prop :=
  reply = HTTPLookupError \/ reply = WhoisLookupError \/ reply = ASNParseError.

(** The state after [k] attempts that timed out, each followed by the
    cooldown. *)
Fixpoint timed_out (host : string) (k : nat) (s : State) : State :=
  match k with
  | O => s
  | S k' => timed_out host k' (slept TIMEOUT_SLEEP (queried host s))
  end.

(** What [k] such attempts add to the trace. *)
Fixpoint retry_events (host : string) (k : nat) : list Event :=
  match k with
  | O => []
  | S k' => EvWhois host :: EvSleep TIMEOUT_SLEEP :: retry_events host k'
  end.

(** Every token of [l], two times in a row. *)
Definition twice (l : list string) : list string :=
  flat_map (fun a => [a; a]) l.

(** The tokens of the batch [ip_list], run from [s] with the counters at
    [cache_hits] and [lookups], for which [single_lookup] sets the error
    flag, one per occurrence and in order.  The state is threaded through
    the loop itself, one token at a time. *)
Fixpoint failed_tokens (w : World) (ip_list : list string)
    (cache_hits lookups : Z) (s : State) : list string :=
  match ip_list with
  | [] => []
  | address :: ip_list' =>
      (match RirSearcher.single_lookup w address false s with
       | (Ok (_, _, true, _), _) => [address]
       | _ => []
       end)
      ++ match RirSearcher.search_loop w [address] cache_hits lookups s with
         | (Ok (cache_hits', lookups'), s') =>
             failed_tokens w ip_list' cache_hits' lookups' s'
         | (Raise _, _) => []
         end
  end.

(** ** Scenarios *)

(** An entry as [set] writes it, with the given [created] stamp. *)
Definition example_entry (created : option datetime) : JsonFields.entry :=
  JsonFields.mk "EXAMPLE-NET" "Example" "US" "ARIN" "" created.

(** A process that starts at [now] beside a cache file that holds
    [members]. *)
Definition started_with (members : list (string * JsonFields.entry))
    (now : datetime) : State :=
  new_process {[ DEFAULT_CACHE_FILE := [JsonDoc members] ]} now.


(** The registry answer of the end-to-end scenario: one net, registry
    ["ARIN"], no ASN block. *)
Definition example_net : Net.t :=
  Net.mk (PyStr "203.0.113.0/24") (PyStr "EXAMPLE-NET") (PyStr "Example")
    (PyStr "US").

Definition example_response : Response.t :=
  Response.mk [example_net] PyNone PyNone PyNone (PyStr "ARIN").

(** A world where every query gets that answer and reverse DNS finds
    nothing. *)
Definition example_world : World :=
  {| IPWhois := fun _ => Ok (fun _ => WhoisResponse example_response);
     gethostbyaddr := fun _ => None |}.

(** A world where every query times out. *)
Definition silent_world : World :=
  {| IPWhois := fun _ => Ok (fun _ => TimeoutError);
     gethostbyaddr := fun _ => None |}.

(** A world where the registry names the block ["IANA-BLK"]. *)
Definition iana_response : Response.t :=
  Response.mk
    [Net.mk (PyStr "8.0.0.0/8") (PyStr "IANA-BLK") (PyStr "Delegated")
       (PyStr "US")]
    (PyStr "8.0.0.0/8") PyNone PyNone (PyStr "ARIN").

Definition iana_world : World :=
  {| IPWhois := fun _ => Ok (fun _ => WhoisResponse iana_response);
     gethostbyaddr := fun _ => None |}.

(** A world where the first query times out and every later one fails
    with an HTTP error. *)
Definition refusing_world : World :=
  {| IPWhois := fun _ =>
       Ok (fun n =>
             match n with
             | O => TimeoutError
             | S _ => HTTPLookupError
             end);
     gethostbyaddr := fun _ => None |}.

(** A world where the library refuses to build the object for the
    addresses of 192.88.99.0/24, which it lists as defined (the relay
    anycast block of RFC 3068) and which [ipaddress] does not set apart;
    for every other address the queries time out. *)
Definition defined_world : World :=
  {| IPWhois := fun host =>
       if String.prefix "192.88.99." host then Raise IPDefinedError
       else Ok (fun _ => TimeoutError);
     gethostbyaddr := fun _ => None |}.

(** A process about to run [search_list] over [tokens]. *)
Definition batch (tokens : list string) : State :=
  mkState [] [] [] [] tokens 0 ∅ 0 0%nat [].

(** * Properties *)

(** ** Strings *)

Example split_slash : PyStr.split "/" "8.8.8.8/abc" = ["8.8.8.8"; "abc"].
Proof. reflexivity. Qed.

Example split_none : PyStr.split "/" "8.8.8.8" = ["8.8.8.8"].
Proof. reflexivity. Qed.

Example split_trailing : PyStr.split "/" "8.8.8.8/" = ["8.8.8.8"; ""].
Proof. reflexivity. Qed.

Example int_32 : PyStr.int " +3_2 " = Ok 32.
Proof. reflexivity. Qed.

Example int_abc : PyStr.int "abc" = Raise ValueError.
Proof. reflexivity. Qed.

Example int_empty : PyStr.int "" = Raise ValueError.
Proof. reflexivity. Qed.

(** The literals of the [ipaddress] tables are networks. *)
Example private_tables_parse :
  map ipaddress.ip_network ipaddress.V4._private_networks_literals
  = map Ok ipaddress.V4._private_networks
  /\ map ipaddress.ip_network ipaddress.V6._private_networks_literals
     = map Ok ipaddress.V6._private_networks
  /\ map ipaddress.ip_network ipaddress.V6._reserved_networks_literals
     = map Ok ipaddress.V6._reserved_networks.
Proof. vm_compute. auto. Qed.

Example classify_samples :
  map (fun token => snd (RirSearcher._check_known_nets token))
    ["10.1.2.3"; "224.0.0.1"; "not an address"; "8.8.8.8"; "::1";
     "2606:4700:4700::1111"]
  = [ Some (ResolvedNetwork.well_known "10.1.2.3"
              Descriptions.PRIVATE_IP_DESCR);
      Some (ResolvedNetwork.well_known "224.0.0.1"
              Descriptions.MCAST_IP_DESCR);
      Some (ResolvedNetwork.well_known "not an address"
              Descriptions.INVALID_IP_DESCR);
      None;
      Some (ResolvedNetwork.well_known "::1" Descriptions.PRIVATE_IP_DESCR);
      None ].
Proof. vm_compute. reflexivity. Qed.

(** ** Dictionaries *)

Section dict_facts.
Context {K V : Type} `{EqDecision K}.
Implicit Types (d : list (K * V)) (k : K) (v : V).

Lemma get_set_eq d k v : PyDict.get (PyDict.set d k v) k = Some v.
Proof.
  induction d as [|[k' v'] d IH]; simpl.
  - destruct (decide (k = k)); congruence.
  - destruct (decide (k' = k)) as [->|Hne]; simpl.
    + destruct (decide (k = k)); congruence.
    + destruct (decide (k' = k)); [contradiction|exact IH].
Qed.

Lemma get_set_ne d k k' v :
  k <> k' -> PyDict.get (PyDict.set d k v) k' = PyDict.get d k'.
Proof.
  intros Hne. induction d as [|[k0 v0] d IH]; simpl.
  - destruct (decide (k = k')); [contradiction|reflexivity].
  - destruct (decide (k0 = k)) as [->|Hk0]; simpl.
    + destruct (decide (k = k')); [contradiction|reflexivity].
    + destruct (decide (k0 = k')); [reflexivity|exact IH].
Qed.

Lemma get_None_keys d k : PyDict.get d k = None <-> ~ In k (PyDict.keys d).
Proof.
  induction d as [|[k' v'] d IH]; simpl.
  - tauto.
  - destruct (decide (k' = k)) as [->|Hne].
    + split; [discriminate|]. intros Hn. exfalso. apply Hn. now left.
    + rewrite IH. split.
      * intros Hn [Heq|Hin]; [contradiction|auto].
      * intros Hn Hin. apply Hn. now right.
Qed.

Lemma get_Some_In d k v : PyDict.get d k = Some v -> In (k, v) d.
Proof.
  induction d as [|[k' v'] d IH]; simpl; [discriminate|].
  destruct (decide (k' = k)) as [->|Hne].
  - intros [= ->]. now left.
  - intros Hg. right. auto.
Qed.

Lemma In_get_NoDup d k v :
  List.NoDup (PyDict.keys d) -> In (k, v) d -> PyDict.get d k = Some v.
Proof.
  induction d as [|[k' v'] d IH]; simpl; [tauto|].
  intros Hnd [Heq|Hin].
  - inversion Heq; subst. destruct (decide (k = k)); congruence.
  - apply List.NoDup_cons_iff in Hnd as [Hnotin Hnd].
    destruct (decide (k' = k)) as [->|Hne].
    + exfalso. apply Hnotin. change k with (fst (k, v)).
      now apply in_map.
    + auto.
Qed.

Lemma set_fresh d k v :
  ~ In k (PyDict.keys d) -> PyDict.set d k v = (d ++ [(k, v)])%list.
Proof.
  induction d as [|[k' v'] d IH]; simpl; [reflexivity|].
  intros Hn. destruct (decide (k' = k)) as [->|Hne].
  - exfalso. apply Hn. now left.
  - rewrite IH; [reflexivity|]. intros Hin. apply Hn. now right.
Qed.

Lemma keys_set_present d k v :
  In k (PyDict.keys d) -> PyDict.keys (PyDict.set d k v) = PyDict.keys d.
Proof.
  induction d as [|[k' v'] d IH]; simpl; [tauto|].
  intros Hin. destruct (decide (k' = k)) as [->|Hne]; simpl.
  - reflexivity.
  - f_equal. apply IH. destruct Hin; [contradiction|assumption].
Qed.

Lemma NoDup_keys_set d k v :
  List.NoDup (PyDict.keys d) -> List.NoDup (PyDict.keys (PyDict.set d k v)).
Proof.
  intros Hnd.
  destruct (PyDict.get d k) eqn:Hg.
  - rewrite keys_set_present; [exact Hnd|].
    apply get_Some_In in Hg. change k with (fst (k, v0)). now apply in_map.
  - apply get_None_keys in Hg. rewrite set_fresh by exact Hg.
    unfold PyDict.keys. rewrite map_app. simpl.
    apply List.NoDup_app.
    + exact Hnd.
    + constructor; [intros []|constructor].
    + intros x Hx [<-|[]]. contradiction.
Qed.

Lemma NoDup_keys_fold_set (pairs : list (K * V)) d :
  List.NoDup (PyDict.keys d) ->
  List.NoDup (PyDict.keys
           (fold_left (fun d kv => PyDict.set d (fst kv) (snd kv)) pairs d)).
Proof.
  revert d. induction pairs as [|[k v] pairs IH]; intros d Hnd; simpl.
  - exact Hnd.
  - apply IH. now apply NoDup_keys_set.
Qed.

Lemma NoDup_keys_of_pairs (pairs : list (K * V)) :
  List.NoDup (PyDict.keys (PyDict.of_pairs pairs)).
Proof. apply NoDup_keys_fold_set. constructor. Qed.

Lemma fold_set_app (d acc : list (K * V)) :
  List.NoDup (PyDict.keys (acc ++ d)) ->
  fold_left (fun d kv => PyDict.set d (fst kv) (snd kv)) d acc
  = (acc ++ d)%list.
Proof.
  revert acc. induction d as [|[k v] d IH]; intros acc Hnd; simpl.
  - now rewrite app_nil_r.
  - rewrite set_fresh.
    + rewrite IH; rewrite <- app_assoc; [reflexivity|exact Hnd].
    + unfold PyDict.keys in Hnd. rewrite map_app in Hnd. simpl in Hnd.
      apply List.NoDup_remove_2 in Hnd. intros Hin. apply Hnd.
      apply in_or_app. now left.
Qed.

(** A dictionary written out and read back is the same dictionary. *)
Lemma of_pairs_id d : List.NoDup (PyDict.keys d) -> PyDict.of_pairs d = d.
Proof. intros Hnd. unfold PyDict.of_pairs. now rewrite fold_set_app. Qed.

Lemma del_app_fresh (pre d : list (K * V)) k v :
  ~ In k (PyDict.keys pre) ->
  PyDict.del (pre ++ (k, v) :: d) k = (pre ++ d)%list.
Proof.
  induction pre as [|[k' v'] pre IH]; simpl; intros Hn.
  - destruct (decide (k = k)); congruence.
  - destruct (decide (k' = k)) as [->|Hne].
    + exfalso. apply Hn. now left.
    + rewrite IH; [reflexivity|]. intros Hin. apply Hn. now right.
Qed.


End dict_facts.

(** ** What [ipaddress] can raise *)

Lemma rbind_Raise {A B} (r : result A) (k : A -> result B) e :
  rbind r k = Raise e ->
  r = Raise e \/ exists a, r = Ok a /\ k a = Raise e.
Proof.
  destruct r as [a|e']; simpl; intros H.
  - right. exists a. split; [reflexivity|exact H].
  - left. now inversion H.
Qed.

Lemma v4_address_exn a e :
  ipaddress.V4.IPv4Address_ip a = Raise e -> e = AddressValueError.
Proof.
  unfold ipaddress.V4.IPv4Address_ip, ipaddress.V4._ip_int_from_string.
  repeat match goal with
         | |- context [if ?b then _ else _] => destruct b
         | |- context [match ?r with Ok _ => _ | Raise _ => _ end] => destruct r
         end; congruence.
Qed.

Lemma prefix_string_exn m s e :
  ipaddress._prefix_from_prefix_string m s = Raise e -> e = NetmaskValueError.
Proof.
  unfold ipaddress._prefix_from_prefix_string.
  repeat match goal with
         | |- context [if ?b then _ else _] => destruct b
         end; congruence.
Qed.

Lemma prefix_int_exn m n e :
  ipaddress._prefix_from_int m n = Raise e -> e = NetmaskValueError.
Proof.
  unfold ipaddress._prefix_from_int.
  destruct (negb _); congruence.
Qed.

Lemma v4_netmask_exn arg e :
  ipaddress.V4._make_netmask arg = Raise e -> e = NetmaskValueError.
Proof.
  unfold ipaddress.V4._make_netmask. intros H.
  apply rbind_Raise in H as [H|(p & _ & H)]; [|discriminate].
  destruct arg as [n|s].
  - now apply prefix_int_exn in H.
  - destruct (ipaddress._prefix_from_prefix_string _ s) as [p|e'] eqn:Hp.
    + discriminate.
    + apply prefix_string_exn in Hp as ->.
      unfold ipaddress.V4._prefix_from_ip_string in H.
      repeat match type of H with
             | context [match ?r with Ok _ => _ | Raise _ => _ end] =>
                 destruct r
             end; congruence.
Qed.

Lemma split_addr_prefix_exn m a e :
  ipaddress._split_addr_prefix m a = Raise e -> e = AddressValueError.
Proof.
  unfold ipaddress._split_addr_prefix.
  destruct (PyStr.split "/" a) as [|x [|y [|z l]]]; congruence.
Qed.

Lemma v4_network_exn a e :
  ipaddress.V4.IPv4Network_init a = Raise e ->
  e = ValueError \/ e = AddressValueError \/ e = NetmaskValueError.
Proof.
  unfold ipaddress.V4.IPv4Network_init. intros H.
  apply rbind_Raise in H as [H|([addr mask] & _ & H)].
  { apply split_addr_prefix_exn in H as ->. auto. }
  apply rbind_Raise in H as [H|(packed & _ & H)].
  { apply v4_address_exn in H as ->. auto. }
  apply rbind_Raise in H as [H|([netmask prefixlen] & _ & H)].
  { apply v4_netmask_exn in H as ->. auto. }
  destruct (negb _); [|discriminate]. inversion H. auto.
Qed.

Lemma find_skip_exn middle i skip e :
  ipaddress.V6.find_skip i middle skip = Raise e -> e = AddressValueError.
Proof.
  revert i skip. induction middle as [|p rest IH]; intros i skip; simpl.
  - discriminate.
  - destruct (String.eqb p ""); [destruct skip|]; eauto. congruence.
Qed.

Lemma v6_ip_int_exn a e :
  ipaddress.V6._ip_int_from_string a = Raise e -> e = AddressValueError.
Proof.
  unfold ipaddress.V6._ip_int_from_string.
  destruct (String.eqb a ""); [congruence|].
  destruct (_ <? 3); [congruence|].
  intros H. apply rbind_Raise in H as [H|(parts & _ & H)].
  { destruct (PyStr.contains_char _ _); [|discriminate].
    destruct (ipaddress.V4.IPv4Address_ip _); congruence. }
  destruct (_ <? _); [congruence|].
  apply rbind_Raise in H as [H|(skip & _ & H)].
  { now apply find_skip_exn in H. }
  apply rbind_Raise in H as [H|([[hi lo] skipped] & _ & H)].
  - destruct skip as [k|].
    + apply rbind_Raise in H as [H|(hi & _ & H)].
      { repeat match type of H with
               | context [if ?b then _ else _] => destruct b
               end; congruence. }
      apply rbind_Raise in H as [H|(lo & _ & H)].
      { repeat match type of H with
               | context [if ?b then _ else _] => destruct b
               end; congruence. }
      destruct (_ <? 1); congruence.
    + repeat match type of H with
             | context [if ?b then _ else _] => destruct b
             end; congruence.
  - destruct (rbind _ _); congruence.
Qed.

Lemma v6_address_exn a e :
  ipaddress.V6.IPv6Address_init a = Raise e -> e = AddressValueError.
Proof.
  unfold ipaddress.V6.IPv6Address_init.
  destruct (PyStr.contains_char "/" a); [congruence|].
  intros H. apply rbind_Raise in H as [H|([addr scope] & _ & H)].
  - unfold ipaddress.V6._split_scope_id in H.
    destruct (PyStr.split "%" a) as [|x [|y [|z l]]]; try congruence.
    destruct (String.eqb y ""); congruence.
  - apply rbind_Raise in H as [H|(ip & _ & H)]; [|discriminate].
    now apply v6_ip_int_exn in H.
Qed.

Lemma v6_network_exn a e :
  ipaddress.V6.IPv6Network_init a = Raise e ->
  e = ValueError \/ e = AddressValueError \/ e = NetmaskValueError.
Proof.
  unfold ipaddress.V6.IPv6Network_init. intros H.
  apply rbind_Raise in H as [H|([addr mask] & _ & H)].
  { apply split_addr_prefix_exn in H as ->. auto. }
  apply rbind_Raise in H as [H|([packed scope] & _ & H)].
  { apply v6_address_exn in H as ->. auto. }
  apply rbind_Raise in H as [H|([netmask prefixlen] & _ & H)].
  { unfold ipaddress.V6._make_netmask in H.
    apply rbind_Raise in H as [H|(p & _ & H)]; [|discriminate].
    destruct mask.
    - apply prefix_int_exn in H as ->. auto.
    - apply prefix_string_exn in H as ->. auto. }
  destruct (negb _); [|discriminate]. inversion H. auto.
Qed.

(** [ip_network] raises nothing but [ValueError]. *)
Lemma ip_network_exn a e : ipaddress.ip_network a = Raise e -> e = ValueError.
Proof.
  unfold ipaddress.ip_network, ipaddress.except_addr_or_mask.
  destruct (ipaddress.V4.IPv4Network_init a) as [n|e4] eqn:H4; [discriminate|].
  apply v4_network_exn in H4.
  destruct (ipaddress.V6.IPv6Network_init a) as [n|e6] eqn:H6.
  - destruct H4 as [He|[He|He]]; subst e4; simpl; congruence.
  - apply v6_network_exn in H6.
    destruct H4 as [He|[He|He]], H6 as [He'|[He'|He']]; subst e4 e6;
      simpl; congruence.
Qed.

(** [ip_address] raises nothing but [ValueError]. *)
Lemma ip_address_exn a e : ipaddress.ip_address a = Raise e -> e = ValueError.
Proof.
  unfold ipaddress.ip_address, ipaddress.except_addr_or_mask.
  destruct (ipaddress.V4.IPv4Address_ip a) as [n|e4] eqn:H4; simpl;
    [discriminate|].
  apply v4_address_exn in H4 as ->.
  destruct (ipaddress.V6.IPv6Address_init a) as [[n sc]|e6] eqn:H6; simpl;
    [discriminate|].
  apply v6_address_exn in H6 as ->. congruence.
Qed.

(** ** Loading the cache *)

Lemma collect_stale_unexpired now (d pre : list (string * JsonFields.entry)) :
  List.NoDup (PyDict.keys (pre ++ d)) ->
  fold_left PyDict.del (NetworkCache.collect_stale now d) (pre ++ d)
  = pre ++ unexpired now d.
Proof.
  revert pre. induction d as [|[k e] d IH]; intros pre Hnd; simpl.
  - reflexivity.
  - unfold expired. simpl.
    assert (Hk : ~ In k (PyDict.keys pre)).
    { unfold PyDict.keys in Hnd. rewrite map_app in Hnd. simpl in Hnd.
      apply List.NoDup_remove_2 in Hnd. intros Hin. apply Hnd.
      apply in_or_app. now left. }
    assert (Hrest : List.NoDup (PyDict.keys (pre ++ d))).
    { unfold PyDict.keys in *. rewrite map_app in *. simpl in Hnd.
      now apply List.NoDup_remove_1 in Hnd. }
    assert (Hstale :
      fold_left PyDict.del (k :: NetworkCache.collect_stale now d)
        (pre ++ (k, e) :: d) = pre ++ unexpired now d).
    { simpl. rewrite del_app_fresh by exact Hk. now apply IH. }
    assert (Hkeep :
      fold_left PyDict.del (NetworkCache.collect_stale now d)
        (pre ++ (k, e) :: d) = pre ++ (k, e) :: unexpired now d).
    { change (pre ++ (k, e) :: d) with (pre ++ [(k, e)] ++ d).
      rewrite app_assoc. rewrite IH.
      - now rewrite <- app_assoc.
      - now rewrite <- app_assoc. }
    destruct (JsonFields.CREATED e) as [created|]; simpl.
    + unfold CACHE_TIMEOUT_DAYS.
      destruct (created + relativedelta_days 14 <=? now); simpl.
      * exact Hstale.
      * exact Hkeep.
    + exact Hstale.
Qed.

Lemma build_index_total keys acc :
  Forall parses keys -> exists index, NetworkCache.build_index acc keys = Ok index.
Proof.
  revert acc. induction keys as [|k keys IH]; intros acc Hall; simpl.
  - eauto.
  - inversion Hall as [|? ? [net Hnet] Hrest]; subst. rewrite Hnet. now apply IH.
Qed.

Lemma build_index_raises keys acc :
  Exists (fun k => ~ parses k) keys ->
  NetworkCache.build_index acc keys = Raise ValueError.
Proof.
  revert acc. induction keys as [|k keys IH]; intros acc Hex; simpl.
  - inversion Hex.
  - destruct (ipaddress.ip_network k) as [net|e] eqn:Hk.
    + apply IH. inversion Hex as [? ? Hbad|]; subst; [|assumption].
      exfalso. apply Hbad. now exists net.
    + now apply ip_network_exn in Hk as ->.
Qed.

(** What [__init__] does with a file that holds one JSON document. *)
Lemma init_loaded cache_file members s :
  files s !! cache_file = Some [JsonDoc members] ->
  NetworkCache.__init__ cache_file s
  = let d := unexpired (clock s) (PyDict.of_pairs members) in
    match NetworkCache.build_index [] (PyDict.keys d) with
    | Ok index => (Ok tt, with_net_to_cidr index (with_cache d s))
    | Raise e => (Raise e, with_cache d s)
    end.
Proof.
  intros Hfile. unfold NetworkCache.__init__, bind, gets, modify, lift, ret.
  cbn beta iota. rewrite Hfile. simpl.
  pose proof (collect_stale_unexpired (clock s) (PyDict.of_pairs members) [])
    as Hprune.
  simpl in Hprune. rewrite Hprune by apply NoDup_keys_of_pairs.
  destruct (NetworkCache.build_index [] _); reflexivity.
Qed.




(** A load over a key that stays and does not parse raises [ValueError]:
    the comprehension that rebuilds the index has no handler.  The pruned
    mapping has been assigned by then; the index has not. *)
Lemma load_raises_on_unparsable
    (cache_file : string) (members : list (string * JsonFields.entry))
    (s : State) :
  files s !! cache_file = Some [JsonDoc members] ->
  Exists (fun k => ~ parses k)
    (PyDict.keys (unexpired (clock s) (PyDict.of_pairs members))) ->
  NetworkCache.__init__ cache_file s
  = (Raise ValueError,
     with_cache (unexpired (clock s) (PyDict.of_pairs members)) s).
Proof.
  intros Hfile Hbad.
  rewrite (init_loaded _ _ _ Hfile). cbv zeta.
  now rewrite (build_index_raises _ [] Hbad).
Qed.

(** Saving and loading again, when every key that stays parses: the
    reloaded mapping is the saved one without its expired entries. *)
Lemma save_then_load (cache_file : string) (s : State) (now : datetime) :
  List.NoDup (PyDict.keys (cache s)) ->
  Forall parses (PyDict.keys (unexpired now (cache s))) ->
  exists s1 s',
    NetworkCache.save_cache cache_file s = (Ok tt, s1)
    /\ files s1 !! cache_file = Some [JsonDoc (cache s)]
    /\ NetworkCache.__init__ cache_file (new_process (files s1) now)
       = (Ok tt, s')
    /\ cache s' = unexpired now (cache s).
Proof.
  intros Hnd Hparse.
  eexists. unfold NetworkCache.save_cache, modify.
  assert (Hfile :
    files (new_process
             (files (with_files (<[cache_file:=[JsonDoc (cache s)]]> (files s)) s))
             now) !! cache_file = Some [JsonDoc (cache s)]).
  { simpl. apply lookup_insert_eq. }
  rewrite (init_loaded _ _ _ Hfile). cbv zeta. simpl.
  rewrite (of_pairs_id _ Hnd).
  destruct (build_index_total _ [] Hparse) as [index Hindex].
  rewrite Hindex. eexists. split; [reflexivity|].
  split; [apply lookup_insert_eq|]. split; reflexivity.
Qed.


(** C4. A cache file whose one key, stamped a day before the load, is not
    a network: the load raises [ValueError] instead of skipping the key.
    The key is in the mapping of the half-built object and the index has
    not been assigned. *)
Theorem C4_load_raises_on_bad_key :
  exists s',
    NetworkCache.__init__ DEFAULT_CACHE_FILE
      (started_with [("not-a-network", example_entry (Some 0))]
         (relativedelta_days 1))
    = (Raise ValueError, s')
    /\ PyDict.get (cache s') "not-a-network" = Some (example_entry (Some 0))
    /\ net_to_cidr s' = [].
Proof.
  eexists. split; [|split].
  - apply load_raises_on_unparsable.
    + reflexivity.
    + constructor. intros [net Hnet]. vm_compute in Hnet. discriminate.
  - reflexivity.
  - reflexivity.
Qed.

(** C9. A cache that [set] was given a key that is not a network, saved
    and loaded again at the same instant by a new process: the load raises
    [ValueError], so the saved entry, which is not expired, is not in a
    reloaded cache. *)
Theorem C9_save_load_raises :
  exists s1 s2 s',
    NetworkCache.set "not-a-network" "EXAMPLE-NET" "Example" "US" "ARIN" ""
      (new_process ∅ 0) = (Ok tt, s1)
    /\ cache s1 = [("not-a-network", example_entry (Some 0))]
    /\ NetworkCache.save_cache DEFAULT_CACHE_FILE s1 = (Ok tt, s2)
    /\ unexpired 0 (cache s1) = cache s1
    /\ NetworkCache.__init__ DEFAULT_CACHE_FILE (new_process (files s2) 0)
       = (Raise ValueError, s').
Proof.
  eexists. eexists. eexists.
  split; [reflexivity|]. split; [reflexivity|]. split; [reflexivity|].
  split; [reflexivity|].
  apply load_raises_on_unparsable.
  - reflexivity.
  - constructor. intros [net Hnet]. vm_compute in Hnet. discriminate.
Qed.

(** ** Containment queries *)

Lemma first_match_uncovered index a :
  uncovered index a -> NetworkCache.first_match index a = None.
Proof.
  induction index as [|[net c] index IH]; intros Hun; simpl; [reflexivity|].
  rewrite (Hun net c) by now left.
  apply IH. intros net' c' Hin. apply (Hun net' c'). now right.
Qed.

Lemma first_match_None index a :
  NetworkCache.first_match index a = None -> uncovered index a.
Proof.
  induction index as [|[net c] index IH]; simpl; intros Hm net' c' Hin.
  - destruct Hin.
  - destruct (ipaddress.contains net a) eqn:Hc; [discriminate|].
    destruct Hin as [[= <- <-]|Hin]; [exact Hc|]. now apply (IH Hm net' c').
Qed.

Lemma first_match_first before net CIDR after a :
  uncovered before a -> ipaddress.contains net a = true ->
  NetworkCache.first_match (before ++ (net, CIDR) :: after) a = Some CIDR.
Proof.
  induction before as [|[net' c'] before IH]; intros Hun Hc; simpl.
  - now rewrite Hc.
  - rewrite (Hun net' c') by now left.
    apply IH; [|exact Hc]. intros n c Hin. apply (Hun n c). now right.
Qed.

Lemma first_match_set index net CIDR a :
  (forall net' c', In (net', c') index ->
                   ipaddress.contains net' a = true -> net' = net) ->
  ipaddress.contains net a = true ->
  NetworkCache.first_match (PyDict.set index net CIDR) a = Some CIDR.
Proof.
  induction index as [|[n0 c0] index IH]; intros Honly Hc; simpl.
  - now rewrite Hc.
  - destruct (decide (n0 = net)) as [->|Hne]; simpl.
    + now rewrite Hc.
    + destruct (ipaddress.contains n0 a) eqn:Hc0.
      * exfalso. apply Hne. apply (Honly n0 c0); [now left|exact Hc0].
      * apply IH; [|exact Hc]. intros n c Hin. apply (Honly n c). now right.
Qed.

(** After [set] of a network around [a], [in_cache] answers, on any
    cache: with the CIDR just written, or with the CIDR of another
    network around [a] that was indexed before. *)
Lemma first_match_after_set index net CIDR a :
  ipaddress.contains net a = true ->
  NetworkCache.first_match (PyDict.set index net CIDR) a = Some CIDR
  \/ exists net' c',
       In (net', c') index /\ net' <> net
       /\ ipaddress.contains net' a = true
       /\ NetworkCache.first_match (PyDict.set index net CIDR) a = Some c'.
Proof.
  intros Hc. induction index as [|[n0 c0] index IH]; simpl.
  - left. now rewrite Hc.
  - destruct (decide (n0 = net)) as [->|Hne]; simpl.
    + left. now rewrite Hc.
    + destruct (ipaddress.contains n0 a) eqn:Hc0.
      * right. exists n0, c0. auto.
      * destruct IH as [IH|(net' & c' & Hin & Hne' & Hc' & IH)].
        -- left. exact IH.
        -- right. exists net', c'. auto.
Qed.

(** [set] on a key that parses: the mapping gets the entry, stamped with
    the clock, and the index gets the network. *)
Lemma set_parsed network net name description country registry fqdn s :
  ipaddress.ip_network network = Ok net ->
  NetworkCache.set network name description country registry fqdn s
  = (Ok tt,
     with_net_to_cidr (PyDict.set (net_to_cidr s) net network)
       (with_cache
          (PyDict.set (cache s) network
             (JsonFields.mk name description country registry fqdn
                (Some (clock s))))
          s)).
Proof.
  intros Hnet. unfold NetworkCache.set, bind, gets, modify.
  rewrite Hnet. reflexivity.
Qed.

(** [set] on a key that does not parse: only the mapping changes. *)
Lemma set_unparsed network name description country registry fqdn s :
  ~ parses network ->
  NetworkCache.set network name description country registry fqdn s
  = (Ok tt,
     with_cache
       (PyDict.set (cache s) network
          (JsonFields.mk name description country registry fqdn
             (Some (clock s))))
       s).
Proof.
  intros Hbad. unfold NetworkCache.set, bind, gets, modify.
  destruct (ipaddress.ip_network network) as [net|e] eqn:Hnet.
  - exfalso. apply Hbad. now exists net.
  - apply ip_network_exn in Hnet as ->. reflexivity.
Qed.

(** C6. After [set("10.0.0.0/8", ...)] on a cache whose index holds no
    other network around 10.1.2.3, [in_cache] of 10.1.2.3 returns
    ["10.0.0.0/8"].  For an address no indexed network contains,
    [in_cache] returns [None] and the state is what it was.  When several
    indexed networks contain the address, the answer is the CIDR of the
    first of them in insertion order: with 10.0.0.0/8 written before
    10.1.0.0/16, the answer for 10.1.2.3 is ["10.0.0.0/8"], not the more
    specific block. *)
Theorem C6_in_cache_first_match :
  (forall s name description country registry fqdn net ip,
      ipaddress.ip_network "10.0.0.0/8" = Ok net ->
      ipaddress.ip_address "10.1.2.3" = Ok ip ->
      (forall net' c', In (net', c') (net_to_cidr s) ->
                       ipaddress.contains net' ip = true -> net' = net) ->
      exists s1,
        NetworkCache.set "10.0.0.0/8" name description country registry fqdn s
        = (Ok tt, s1)
        /\ NetworkCache.in_cache ip s1 = (Ok (Some "10.0.0.0/8"), s1))
  /\ (forall s a,
        uncovered (net_to_cidr s) a ->
        NetworkCache.in_cache a s = (Ok None, s))
  /\ (forall s a before net CIDR after,
        net_to_cidr s = before ++ (net, CIDR) :: after ->
        uncovered before a ->
        ipaddress.contains net a = true ->
        NetworkCache.in_cache a s = (Ok (Some CIDR), s))
  /\ (forall ip wide narrow,
        ipaddress.ip_address "10.1.2.3" = Ok ip ->
        ipaddress.ip_network "10.0.0.0/8" = Ok wide ->
        ipaddress.ip_network "10.1.0.0/16" = Ok narrow ->
        exists s1 s2,
          NetworkCache.set "10.0.0.0/8" "A" "" "" "" "" (new_process ∅ 0)
          = (Ok tt, s1)
          /\ NetworkCache.set "10.1.0.0/16" "B" "" "" "" "" s1 = (Ok tt, s2)
          /\ ipaddress.contains wide ip = true
          /\ ipaddress.contains narrow ip = true
          /\ NetworkCache.in_cache ip s2 = (Ok (Some "10.0.0.0/8"), s2)).
Proof.
  split; [|split; [|split]].
  - intros s name description country registry fqdn net ip Hnet Hip Honly.
    rewrite (set_parsed _ _ _ _ _ _ _ _ Hnet). eexists. split; [reflexivity|].
    unfold NetworkCache.in_cache, bind, gets, ret. simpl.
    rewrite first_match_set; [reflexivity|exact Honly|].
    vm_compute in Hnet, Hip. inversion Hnet; inversion Hip; subst.
    vm_compute. reflexivity.
  - intros s a Hun. unfold NetworkCache.in_cache, bind, gets, ret.
    now rewrite first_match_uncovered.
  - intros s a before net CIDR after Hindex Hun Hc.
    unfold NetworkCache.in_cache, bind, gets, ret.
    rewrite Hindex. now rewrite first_match_first.
  - intros ip wide narrow Hip Hwide Hnarrow.
    vm_compute in Hip, Hwide, Hnarrow.
    inversion Hip; inversion Hwide; inversion Hnarrow; subst.
    eexists. eexists. repeat split; reflexivity.
Qed.

(** C6 at the empty cache, at an index of three networks and at the two
    writes in a row. *)
Lemma C6_in_cache_first_match_witness :
  (exists s1,
      NetworkCache.set "10.0.0.0/8" "EXAMPLE-NET" "Example" "US" "ARIN" ""
        (new_process ∅ 0) = (Ok tt, s1)
      /\ NetworkCache.in_cache (ipaddress.IPv4Address 167838211) s1
         = (Ok (Some "10.0.0.0/8"), s1))
  /\ NetworkCache.in_cache (ipaddress.IPv4Address 134744072)
       (new_process ∅ 0)
     = (Ok None, new_process ∅ 0)
  /\ (let s :=
        with_net_to_cidr
          [ (ipaddress.IPv4Network 134744064 24, "8.8.8.0/24");
            (ipaddress.IPv4Network 167772160 8, "10.0.0.0/8");
            (ipaddress.IPv4Network 167837696 16, "10.1.0.0/16") ]
          (new_process ∅ 0) in
      NetworkCache.in_cache (ipaddress.IPv4Address 167838211) s
      = (Ok (Some "10.0.0.0/8"), s))
  /\ (exists s1 s2,
        NetworkCache.set "10.0.0.0/8" "A" "" "" "" "" (new_process ∅ 0)
        = (Ok tt, s1)
        /\ NetworkCache.set "10.1.0.0/16" "B" "" "" "" "" s1 = (Ok tt, s2)
        /\ NetworkCache.in_cache (ipaddress.IPv4Address 167838211) s2
           = (Ok (Some "10.0.0.0/8"), s2)).
Proof.
  destruct C6_in_cache_first_match as (Hset & Hnone & Hfirst & Hwide).
  split; [|split; [|split]].
  - apply (Hset (new_process ∅ 0) "EXAMPLE-NET" "Example" "US" "ARIN" ""
             (ipaddress.IPv4Network 167772160 8)
             (ipaddress.IPv4Address 167838211)).
    + reflexivity.
    + reflexivity.
    + intros net' c' [].
  - apply Hnone. intros net c [].
  - apply (Hfirst _ _ [(ipaddress.IPv4Network 134744064 24, "8.8.8.0/24")]
             (ipaddress.IPv4Network 167772160 8) "10.0.0.0/8"
             [(ipaddress.IPv4Network 167837696 16, "10.1.0.0/16")]).
    + reflexivity.
    + intros net c [[= <- <-]|[]]. reflexivity.
    + reflexivity.
  - destruct (Hwide (ipaddress.IPv4Address 167838211)
                (ipaddress.IPv4Network 167772160 8)
                (ipaddress.IPv4Network 167837696 16))
      as (s1 & s2 & H1 & H2 & _ & _ & H3); try reflexivity.
    exists s1, s2. auto.
Defined.

(** ** Frames *)

Lemma save_not_found_frame s :
  exists s',
    NetworkCache.save_not_found s = (Ok tt, s')
    /\ cache s' = cache s
    /\ net_to_cidr s' = net_to_cidr s
    /\ whois_calls s' = whois_calls s
    /\ trace s' = trace s.
Proof.
  unfold NetworkCache.save_not_found, bind, gets, modify, ret.
  destruct (Z.of_nat (length (not_found s)) =? 0);
    eexists; (split; [reflexivity|]); simpl; repeat split; reflexivity.
Qed.

Lemma set_frame network name description country registry fqdn s :
  exists s',
    NetworkCache.set network name description country registry fqdn s
    = (Ok tt, s')
    /\ whois_calls s' = whois_calls s
    /\ trace s' = trace s
    /\ not_found s' = not_found s
    /\ files s' = files s.
Proof.
  destruct (ipaddress.ip_network network) as [net|e] eqn:Hnet.
  - rewrite (set_parsed _ _ _ _ _ _ _ _ Hnet). eexists.
    split; [reflexivity|]. simpl. repeat split; reflexivity.
  - rewrite set_unparsed.
    + eexists. split; [reflexivity|]. simpl. repeat split; reflexivity.
    + intros [net Hnet']. congruence.
Qed.

Lemma for_each_set_frame subnets name description country registry fqdn s :
  exists s',
    for_each subnets (fun net =>
      NetworkCache.set net name description country registry fqdn) s
    = (Ok tt, s')
    /\ whois_calls s' = whois_calls s
    /\ trace s' = trace s
    /\ not_found s' = not_found s
    /\ files s' = files s.
Proof.
  revert s. induction subnets as [|net subnets IH]; intros s; simpl.
  - exists s. unfold ret. repeat split; reflexivity.
  - unfold bind.
    destruct (set_frame net name description country registry fqdn s)
      as (s1 & -> & Hc1 & Ht1 & Hn1 & Hf1).
    destruct (IH s1) as (s2 & -> & Hc2 & Ht2 & Hn2 & Hf2).
    exists s2. split; [reflexivity|].
    repeat split; congruence.
Qed.

(** ** The retry loop *)

Lemma timed_out_fields host k s :
  whois_calls (timed_out host k s) = (whois_calls s + k)%nat
  /\ trace (timed_out host k s) = trace s ++ retry_events host k
  /\ clock (timed_out host k s)
     = clock s + Z.of_nat k * (TIMEOUT_SLEEP * 1000000)
  /\ not_found (timed_out host k s) = not_found s
  /\ cache (timed_out host k s) = cache s
  /\ net_to_cidr (timed_out host k s) = net_to_cidr s
  /\ files (timed_out host k s) = files s
  /\ resolved_ip_list (timed_out host k s) = resolved_ip_list s.
Proof.
  revert s. induction k as [|k IH]; intros s; simpl.
  - rewrite app_nil_r. repeat split; try reflexivity; lia.
  - destruct (IH (slept TIMEOUT_SLEEP (queried host s)))
      as (-> & -> & -> & -> & -> & -> & -> & ->).
    simpl. rewrite <- !app_assoc. simpl.
    repeat split; try reflexivity; lia.
Qed.

Lemma timeouts_shift w host s k :
  timeouts w host s (S k) ->
  lookup_whois w (whois_calls s) host = TimeoutError
  /\ timeouts w host (slept TIMEOUT_SLEEP (queried host s)) k.
Proof.
  intros Hto. split.
  - specialize (Hto 0%nat). rewrite Nat.add_0_r in Hto. apply Hto. lia.
  - intros i Hi. simpl. specialize (Hto (S i)).
    rewrite Nat.add_succ_r in Hto. apply Hto. lia.
Qed.

(** A query made on an object is answered by that object. *)
Lemma lookup_whois_built w n host whois :
  IPWhois w host = Ok whois -> lookup_whois w n host = whois n.
Proof. intros Hbuilt. unfold lookup_whois. now rewrite Hbuilt. Qed.

(** A query that ends in a response or in one of the four handled
    exceptions was made: the constructor had returned. *)
Lemma lookup_whois_handled w n host :
  (forall e, lookup_whois w n host <> Uncaught e) ->
  exists whois, IPWhois w host = Ok whois.
Proof.
  unfold lookup_whois. destruct (IPWhois w host) as [whois|e]; [eauto|].
  intros Hno. now destruct (Hno e).
Qed.

Lemma whois_loop_timeouts w whois k n host c s :
  IPWhois w host = Ok whois ->
  timeouts w host s k ->
  RirSearcher.whois_loop whois (k + n) host c s
  = RirSearcher.whois_loop whois n host (c + Z.of_nat k) (timed_out host k s).
Proof.
  intros Hbuilt. revert c s. induction k as [|k IH]; intros c s Hto.
  - simpl. now rewrite Z.add_0_r.
  - apply timeouts_shift in Hto as [Hfirst Hrest].
    rewrite (lookup_whois_built _ _ _ _ Hbuilt) in Hfirst.
    change (S k + n)%nat with (S (k + n)).
    cbn [RirSearcher.whois_loop]. unfold bind at 1, RirSearcher.whois_query.
    rewrite Hfirst. unfold bind, RirSearcher.sleep.
    rewrite (IH _ _ Hrest). cbn [timed_out].
    f_equal. lia.
Qed.

Lemma whois_loop_calls whois n host c s :
  (whois_calls (snd (RirSearcher.whois_loop whois n host c s))
   <= whois_calls s + n)%nat.
Proof.
  revert c s. induction n as [|n IH]; intros c s; simpl.
  - unfold ret. simpl. lia.
  - unfold bind at 1, RirSearcher.whois_query.
    destruct (whois (whois_calls s)); unfold ret, raise; simpl;
      try lia.
    unfold bind, RirSearcher.sleep.
    specialize (IH (c + 1) (slept TIMEOUT_SLEEP (queried host s))).
    simpl in IH. lia.
Qed.

(** ** What follows a response *)

Lemma reverse_dns_run w address s :
  RirSearcher.reverse_dns w address s
  = match RirSearcher.is_single_host address with
    | Raise e => (Raise e, s)
    | Ok true =>
        (Ok (default "" (gethostbyaddr w (hd "" (PyStr.split "/" address)))),
         reversed (hd "" (PyStr.split "/" address)) s)
    | Ok false => (Ok "", s)
    end.
Proof.
  unfold RirSearcher.reverse_dns, bind, lift, ret, RirSearcher.rdns_query.
  destruct (RirSearcher.is_single_host address) as [[|]|e]; reflexivity.
Qed.

Lemma cache_subnets_reserved persist response name description country
    registry fqdn s :
  str_in name ReservedNetNames = true ->
  RirSearcher.cache_subnets persist response name description country
    registry fqdn s = (Ok tt, s).
Proof.
  intros Hres. unfold RirSearcher.cache_subnets. now rewrite Hres.
Qed.

Lemma cache_subnets_frame persist response name description country
    registry fqdn s :
  exists r s',
    RirSearcher.cache_subnets persist response name description country
      registry fqdn s = (r, s')
    /\ whois_calls s' = whois_calls s
    /\ trace s' = trace s.
Proof.
  unfold RirSearcher.cache_subnets.
  destruct (negb (str_in name ReservedNetNames)); [|unfold ret; eauto].
  unfold bind at 1, lift.
  destruct (RirSearcher.subnets_of response) as [subnets|e]; [|eauto].
  unfold bind at 1.
  destruct (for_each_set_frame subnets name description country registry
              fqdn s) as (s1 & -> & Hc1 & Ht1 & _).
  destruct persist.
  - unfold bind, NetworkCache.save_cache, modify.
    match goal with
    | |- context [NetworkCache.save_not_found ?x] =>
        destruct (save_not_found_frame x) as (s2 & -> & _ & _ & Hc2 & Ht2)
    end.
    simpl in *. exists (Ok tt), s2. repeat split; congruence.
  - unfold ret. eauto.
Qed.

Lemma on_response_calls w address persist response s :
  whois_calls (snd (RirSearcher.on_response w address persist response s))
  = whois_calls s.
Proof.
  unfold RirSearcher.on_response.
  destruct (RirSearcher.net_fields response)
    as [[[[net_cidr net_name] net_description] net_country] net_registry].
  unfold bind at 1. rewrite reverse_dns_run.
  destruct (RirSearcher.is_single_host address) as [[|]|e];
    try reflexivity; unfold bind, ret;
    match goal with
    | |- context [RirSearcher.cache_subnets ?p ?r ?a ?b ?c ?d ?f ?x] =>
        destruct (cache_subnets_frame p r a b c d f x)
          as ([[]|e] & s1 & -> & Hc & _)
    end; simpl in *; exact Hc.
Qed.

(** ** [single_lookup], case by case *)

Section lookup_cases.
Variables (w : World) (address : string) (ip : ipaddress.IPAddress)
          (persist : bool) (s : State).
Hypothesis Hroutable : RirSearcher._check_known_nets address = (Some ip, None).
Hypothesis Huncovered : uncovered (net_to_cidr s) ip.

Let host := ipaddress.str ip.

Lemma single_lookup_routable :
  RirSearcher.single_lookup w address persist s
  = match IPWhois w host with
    | Raise e => (Raise e, s)
    | Ok whois =>
        match RirSearcher.whois_loop whois 3 host 0 s with
        | (Ok (retry_count, Some response), s') =>
            if retry_count =? RETRY_COUNT_MAX
            then (Ok (false, false, true, None),
                  with_not_found (not_found s' ++ [address]) s')
            else RirSearcher.on_response w address persist response s'
        | (Ok (_, None), s') =>
            (Ok (false, false, true, None),
             with_not_found (not_found s' ++ [address]) s')
        | (Raise e, s') => (Raise e, s')
        end
    end.
Proof.
  unfold RirSearcher.single_lookup. rewrite Hroutable.
  unfold bind at 1. unfold NetworkCache.in_cache, bind at 1, gets, ret.
  rewrite (first_match_uncovered _ _ Huncovered).
  change (Z.to_nat RETRY_COUNT_MAX) with 3%nat. fold host.
  unfold bind at 1, lift.
  destruct (IPWhois w host) as [whois|e]; [|reflexivity].
  unfold bind at 1.
  destruct (RirSearcher.whois_loop whois 3 host 0 s)
    as [[[retry_count [response|]]|e] s']; try reflexivity.
  destruct (retry_count =? RETRY_COUNT_MAX); reflexivity.
Qed.

(** The constructor raises: the exception leaves [single_lookup], which
    has made no query and changed nothing. *)
Lemma single_lookup_undefined e :
  IPWhois w host = Raise e ->
  RirSearcher.single_lookup w address persist s = (Raise e, s).
Proof. intros Hraise. now rewrite single_lookup_routable, Hraise. Qed.

(** Three timeouts: the lookup fails after three queries and three
    cooldowns. *)
Lemma single_lookup_exhausted :
  timeouts w host s 3 ->
  exists s',
    RirSearcher.single_lookup w address persist s
    = (Ok (false, false, true, None), s')
    /\ not_found s' = not_found s ++ [address]
    /\ trace s' = trace s ++ retry_events host 3
    /\ whois_calls s' = (whois_calls s + 3)%nat
    /\ cache s' = cache s
    /\ net_to_cidr s' = net_to_cidr s.
Proof.
  intros Hto.
  destruct (lookup_whois_handled w (whois_calls s + 0) host)
    as [whois Hbuilt]; [intros e; rewrite Hto by lia; discriminate|].
  rewrite single_lookup_routable, Hbuilt.
  pose proof (whois_loop_timeouts w whois 3 0 host 0 s Hbuilt Hto) as Hloop.
  change (3 + 0)%nat with 3%nat in Hloop. rewrite Hloop.
  cbn [RirSearcher.whois_loop]. unfold ret.
  destruct (timed_out_fields host 3 s)
    as (Hcalls & Htrace & _ & Hnf & Hcache & Hindex & _).
  revert Hcalls Htrace Hnf Hcache Hindex.
  generalize (timed_out host 3 s). intros t Hcalls Htrace Hnf Hcache Hindex.
  eexists. split; [reflexivity|]. cbn [not_found trace whois_calls cache
    net_to_cidr with_not_found].
  rewrite Hnf. auto.
Qed.

(** Fewer than three timeouts, then an error that is not retried. *)
Lemma single_lookup_error k :
  (k < 3)%nat ->
  timeouts w host s k ->
  non_retryable (lookup_whois w (whois_calls s + k)%nat host) ->
  exists s',
    RirSearcher.single_lookup w address persist s
    = (Ok (false, false, true, None), s')
    /\ not_found s' = not_found s ++ [address]
    /\ trace s' = trace s ++ retry_events host k ++ [EvWhois host]
    /\ whois_calls s' = (whois_calls s + k + 1)%nat
    /\ cache s' = cache s
    /\ net_to_cidr s' = net_to_cidr s.
Proof.
  intros Hk Hto Herr.
  destruct (lookup_whois_handled w (whois_calls s + k) host)
    as [whois Hbuilt];
    [intros e; destruct Herr as [-> | [-> | ->]]; discriminate|].
  rewrite (lookup_whois_built _ _ _ _ Hbuilt) in Herr.
  rewrite single_lookup_routable, Hbuilt.
  replace 3%nat with (k + S (2 - k))%nat by lia.
  rewrite (whois_loop_timeouts w whois k _ host 0 s Hbuilt Hto).
  cbn [RirSearcher.whois_loop]. unfold bind, RirSearcher.whois_query.
  destruct (timed_out_fields host k s)
    as (Hcalls & Htrace & _ & Hnf & Hcache & Hindex & _).
  rewrite Hcalls.
  revert Hcalls Htrace Hnf Hcache Hindex.
  generalize (timed_out host k s). intros t Hcalls Htrace Hnf Hcache Hindex.
  assert (Hdone :
    exists s',
      (Ok (false, false, true, None : option ResolvedNetwork.t),
       with_not_found (not_found (queried host t) ++ [address])
         (queried host t))
      = (Ok (false, false, true, None), s')
      /\ not_found s' = not_found s ++ [address]
      /\ trace s' = trace s ++ retry_events host k ++ [EvWhois host]
      /\ whois_calls s' = (whois_calls s + k + 1)%nat
      /\ cache s' = cache s
      /\ net_to_cidr s' = net_to_cidr s).
  { eexists. split; [reflexivity|].
    cbn [not_found trace whois_calls cache net_to_cidr with_not_found
         queried with_trace with_whois_calls].
    rewrite Hnf, Htrace, Hcalls, Hcache, Hindex, <- app_assoc.
    repeat split; try reflexivity. lia. }
  destruct Herr as [-> | [-> | ->]]; unfold ret; exact Hdone.
Qed.

(** Fewer than three timeouts, then a response: the rest of the lookup
    runs from a state where only the calls, the trace and the clock
    have moved. *)
Lemma single_lookup_response k response :
  (k < 3)%nat ->
  timeouts w host s k ->
  lookup_whois w (whois_calls s + k)%nat host = WhoisResponse response ->
  exists s1,
    RirSearcher.single_lookup w address persist s
    = RirSearcher.on_response w address persist response s1
    /\ trace s1 = trace s ++ retry_events host k ++ [EvWhois host]
    /\ whois_calls s1 = (whois_calls s + k + 1)%nat
    /\ not_found s1 = not_found s
    /\ cache s1 = cache s
    /\ net_to_cidr s1 = net_to_cidr s
    /\ files s1 = files s
    /\ resolved_ip_list s1 = resolved_ip_list s
    /\ clock s1 = clock s + Z.of_nat k * (TIMEOUT_SLEEP * 1000000).
Proof.
  intros Hk Hto Hreply.
  destruct (lookup_whois_handled w (whois_calls s + k) host)
    as [whois Hbuilt]; [intros e; rewrite Hreply; discriminate|].
  rewrite (lookup_whois_built _ _ _ _ Hbuilt) in Hreply.
  rewrite single_lookup_routable, Hbuilt.
  replace 3%nat with (k + S (2 - k))%nat by lia.
  rewrite (whois_loop_timeouts w whois k _ host 0 s Hbuilt Hto).
  cbn [RirSearcher.whois_loop]. unfold bind, RirSearcher.whois_query.
  destruct (timed_out_fields host k s)
    as (Hcalls & Htrace & Hclock & Hnf & Hcache & Hindex & Hfiles & Hres).
  rewrite Hcalls, Hreply. unfold ret.
  replace (0 + Z.of_nat k =? RETRY_COUNT_MAX) with false
    by (symmetry; apply Z.eqb_neq; unfold RETRY_COUNT_MAX; lia).
  revert Hcalls Htrace Hclock Hnf Hcache Hindex Hfiles Hres.
  generalize (timed_out host k s).
  intros t Hcalls Htrace Hclock Hnf Hcache Hindex Hfiles Hres.
  exists (queried host t). split; [reflexivity|].
  cbn [not_found trace whois_calls cache net_to_cidr files resolved_ip_list
       clock queried with_trace with_whois_calls].
  rewrite Hnf, Htrace, Hcalls, Hcache, Hindex, Hfiles, Hres, Hclock,
    <- app_assoc.
  repeat split; try reflexivity. lia.
Qed.

(** Fewer than three timeouts, then an exception that no [except]
    clause names: it leaves [single_lookup] after that query, with the
    queue of failures as it was. *)
Lemma single_lookup_uncaught whois k e :
  (k < 3)%nat ->
  IPWhois w host = Ok whois ->
  timeouts w host s k ->
  whois (whois_calls s + k)%nat = Uncaught e ->
  exists s',
    RirSearcher.single_lookup w address persist s = (Raise e, s')
    /\ not_found s' = not_found s
    /\ trace s' = trace s ++ retry_events host k ++ [EvWhois host]
    /\ whois_calls s' = (whois_calls s + k + 1)%nat
    /\ cache s' = cache s
    /\ net_to_cidr s' = net_to_cidr s
    /\ files s' = files s.
Proof.
  intros Hk Hbuilt Hto Hreply.
  rewrite single_lookup_routable, Hbuilt.
  replace 3%nat with (k + S (2 - k))%nat by lia.
  rewrite (whois_loop_timeouts w whois k _ host 0 s Hbuilt Hto).
  cbn [RirSearcher.whois_loop]. unfold bind, RirSearcher.whois_query.
  destruct (timed_out_fields host k s)
    as (Hcalls & Htrace & _ & Hnf & Hcache & Hindex & Hfiles & _).
  rewrite Hcalls, Hreply. unfold raise.
  revert Hcalls Htrace Hnf Hcache Hindex Hfiles.
  generalize (timed_out host k s).
  intros t Hcalls Htrace Hnf Hcache Hindex Hfiles.
  exists (queried host t). split; [reflexivity|].
  cbn [not_found trace whois_calls cache net_to_cidr files
       queried with_trace with_whois_calls].
  rewrite Hnf, Htrace, Hcalls, Hcache, Hindex, Hfiles, <- app_assoc.
  repeat split; try reflexivity. lia.
Qed.

(** At most three queries, whatever the registry answers. *)
Lemma single_lookup_calls :
  (whois_calls (snd (RirSearcher.single_lookup w address persist s))
   <= whois_calls s + 3)%nat.
Proof.
  rewrite single_lookup_routable.
  destruct (IPWhois w host) as [whois|e]; [|simpl; lia].
  pose proof (whois_loop_calls whois 3 host 0 s) as Hloop.
  destruct (RirSearcher.whois_loop whois 3 host 0 s)
    as [[[retry_count [response|]]|e] s']; simpl in *; try exact Hloop.
  destruct (retry_count =? RETRY_COUNT_MAX); simpl; [exact Hloop|].
  now rewrite on_response_calls.
Qed.

End lookup_cases.

(** ** The retry policy *)

(** C7. For a token that classification lets through and the cache does
    not cover, [single_lookup] makes at most three queries.  When the
    constructor of line 131 has built the object: three timeouts, each
    followed by the cooldown of [TIMEOUT_SLEEP = 10], end in the failed
    outcome with the token appended to [not_found]; fewer than three
    timeouts followed by an HTTP, WHOIS or ASN-parse error end the same
    way with no further query and no further cooldown.  Neither case
    raises or writes the cache.  Fewer than three timeouts followed by a
    response hand that response to the rest of the lookup.

    The runs that are left raise.  The constructor is called outside the
    [try]: its exception leaves [single_lookup] before any query, with
    the state as it was, the queue of failures included.  An exception of
    a query that no [except] clause names leaves it after that query,
    with the queue as it was. *)
Theorem C7_retry_policy
    (w : World) (address : string) (ip : ipaddress.IPAddress)
    (persist : bool) (s : State) :
  RirSearcher._check_known_nets address = (Some ip, None) ->
  uncovered (net_to_cidr s) ip ->
  let host := ipaddress.str ip in
  let run := RirSearcher.single_lookup w address persist s in
  TIMEOUT_SLEEP = 10
  /\ (whois_calls (snd run) <= whois_calls s + 3)%nat
  /\ (forall e, IPWhois w host = Raise e -> run = (Raise e, s))
  /\ (forall whois,
        IPWhois w host = Ok whois ->
        (timeouts w host s 3 ->
         exists s',
           run = (Ok (false, false, true, None), s')
           /\ not_found s' = not_found s ++ [address]
           /\ trace s' = trace s ++ retry_events host 3
           /\ whois_calls s' = (whois_calls s + 3)%nat
           /\ cache s' = cache s
           /\ net_to_cidr s' = net_to_cidr s)
        /\ (forall k,
              (k < 3)%nat ->
              timeouts w host s k ->
              non_retryable (whois (whois_calls s + k)%nat) ->
              exists s',
                run = (Ok (false, false, true, None), s')
                /\ not_found s' = not_found s ++ [address]
                /\ trace s' = trace s ++ retry_events host k ++ [EvWhois host]
                /\ whois_calls s' = (whois_calls s + k + 1)%nat
                /\ cache s' = cache s
                /\ net_to_cidr s' = net_to_cidr s)
        /\ (forall k response,
              (k < 3)%nat ->
              timeouts w host s k ->
              whois (whois_calls s + k)%nat = WhoisResponse response ->
              exists s1,
                run = RirSearcher.on_response w address persist response s1
                /\ trace s1 = trace s ++ retry_events host k ++ [EvWhois host]
                /\ whois_calls s1 = (whois_calls s + k + 1)%nat
                /\ not_found s1 = not_found s
                /\ cache s1 = cache s
                /\ net_to_cidr s1 = net_to_cidr s)
        /\ (forall k e,
              (k < 3)%nat ->
              timeouts w host s k ->
              whois (whois_calls s + k)%nat = Uncaught e ->
              exists s',
                run = (Raise e, s')
                /\ not_found s' = not_found s
                /\ trace s' = trace s ++ retry_events host k ++ [EvWhois host]
                /\ whois_calls s' = (whois_calls s + k + 1)%nat
                /\ cache s' = cache s
                /\ net_to_cidr s' = net_to_cidr s)).
Proof.
  intros Hroutable Huncovered host run. subst run host.
  split; [reflexivity|]. split; [|split].
  - exact (single_lookup_calls w address ip persist s Hroutable Huncovered).
  - intros e Hraise.
    exact (single_lookup_undefined w address ip persist s Hroutable
             Huncovered e Hraise).
  - intros whois Hbuilt. split; [|split; [|split]].
    + intros Hto.
      exact (single_lookup_exhausted w address ip persist s Hroutable
               Huncovered Hto).
    + intros k Hk Hto Herr.
      rewrite <- (lookup_whois_built w _ _ _ Hbuilt) in Herr.
      exact (single_lookup_error w address ip persist s Hroutable
               Huncovered k Hk Hto Herr).
    + intros k response Hk Hto Hreply.
      rewrite <- (lookup_whois_built w _ _ _ Hbuilt) in Hreply.
      destruct (single_lookup_response w address ip persist s Hroutable
                  Huncovered k response Hk Hto Hreply)
        as (s1 & Hrun & Ht & Hc & Hn & Hcache & Hindex & _).
      exists s1. auto 10.
    + intros k e Hk Hto Hreply.
      destruct (single_lookup_uncaught w address ip persist s Hroutable
                  Huncovered whois k e Hk Hbuilt Hto Hreply)
        as (s' & Hrun & Hn & Ht & Hc & Hcache & Hindex & _).
      exists s'. auto 10.
Qed.

(** C7 at ["8.8.8.8"]: three timeouts, one timeout and an HTTP error, and
    an answer at once; at ["192.88.99.1"], an address that the library
    refuses: [IPDefinedError], no query, nothing queued. *)
Lemma C7_retry_policy_witness :
  (exists s',
      RirSearcher.single_lookup silent_world "8.8.8.8" true (new_process ∅ 0)
      = (Ok (false, false, true, None), s')
      /\ not_found s' = ["8.8.8.8"]
      /\ trace s'
         = [EvWhois "8.8.8.8"; EvSleep 10; EvWhois "8.8.8.8"; EvSleep 10;
            EvWhois "8.8.8.8"; EvSleep 10])
  /\ (exists s',
        RirSearcher.single_lookup refusing_world "8.8.8.8" true
          (new_process ∅ 0)
        = (Ok (false, false, true, None), s')
        /\ not_found s' = ["8.8.8.8"]
        /\ trace s' = [EvWhois "8.8.8.8"; EvSleep 10; EvWhois "8.8.8.8"])
  /\ (exists s1,
        RirSearcher.single_lookup example_world "8.8.8.8" true
          (new_process ∅ 0)
        = RirSearcher.on_response example_world "8.8.8.8" true
            example_response s1
        /\ trace s1 = [EvWhois "8.8.8.8"])
  /\ RirSearcher.single_lookup defined_world "192.88.99.1" true
       (new_process ∅ 0)
     = (Raise IPDefinedError, new_process ∅ 0).
Proof.
  split; [|split; [|split]].
  - destruct (C7_retry_policy silent_world "8.8.8.8"
                (ipaddress.IPv4Address 134744072) true (new_process ∅ 0))
      as (_ & _ & _ & Hbuilt).
    + vm_compute. reflexivity.
    + intros net c [].
    + destruct (Hbuilt (fun _ => TimeoutError) eq_refl) as (Hthree & _).
      destruct Hthree as (s' & Hrun & Hn & Ht & _).
      * intros i Hi. reflexivity.
      * exists s'. vm_compute in Hn, Ht. auto.
  - destruct (C7_retry_policy refusing_world "8.8.8.8"
                (ipaddress.IPv4Address 134744072) true (new_process ∅ 0))
      as (_ & _ & _ & Hbuilt).
    + vm_compute. reflexivity.
    + intros net c [].
    + destruct (Hbuilt _ eq_refl) as (_ & Herr & _).
      destruct (Herr 1%nat) as (s' & Hrun & Hn & Ht & _).
      * lia.
      * intros i Hi. assert (i = 0%nat) as -> by lia. reflexivity.
      * left. reflexivity.
      * exists s'. vm_compute in Hn, Ht. auto.
  - destruct (C7_retry_policy example_world "8.8.8.8"
                (ipaddress.IPv4Address 134744072) true (new_process ∅ 0))
      as (_ & _ & _ & Hbuilt).
    + vm_compute. reflexivity.
    + intros net c [].
    + destruct (Hbuilt _ eq_refl) as (_ & _ & Hresp & _).
      destruct (Hresp 0%nat example_response) as (s1 & Hrun & Ht & _).
      * lia.
      * intros i Hi. lia.
      * reflexivity.
      * exists s1. vm_compute in Ht. auto.
  - destruct (C7_retry_policy defined_world "192.88.99.1"
                (ipaddress.IPv4Address 3227017985) true (new_process ∅ 0))
      as (_ & _ & Hraise & _).
    + vm_compute. reflexivity.
    + intros net c [].
    + apply Hraise. reflexivity.
Defined.

(** ** Reserved names *)

Lemma str_in_In x l : str_in x l = true <-> In x l.
Proof.
  unfold str_in. rewrite existsb_exists. split.
  - intros (y & Hin & Heq). apply String.eqb_eq in Heq. now subst.
  - intros Hin. exists x. split; [exact Hin|apply String.eqb_refl].
Qed.

Lemma on_response_reserved w address persist response n rest s :
  Response.nets response = n :: rest ->
  In (one_line (Net.name n)) ReservedNetNames ->
  exists r s',
    RirSearcher.on_response w address persist response s = (r, s')
    /\ cache s' = cache s
    /\ net_to_cidr s' = net_to_cidr s
    /\ files s' = files s
    /\ not_found s' = not_found s
    /\ (forall single_host,
          RirSearcher.is_single_host address = Ok single_host ->
          r = Ok (false, false, false,
                  Some (ResolvedNetwork.mk address
                          (one_line (Net.cidr n))
                          (one_line (Net.description n))
                          (one_line (Net.name n))
                          (one_line (Net.country n))
                          (one_line (Response.asn_registry response))
                          (if single_host
                           then default ""
                                  (gethostbyaddr w
                                     (hd "" (PyStr.split "/" address)))
                           else ""))))
    /\ (forall e, RirSearcher.is_single_host address = Raise e -> r = Raise e).
Proof.
  intros Hnets Hres. apply str_in_In in Hres.
  unfold RirSearcher.on_response, RirSearcher.net_fields. rewrite Hnets.
  unfold bind at 1. rewrite reverse_dns_run.
  destruct (RirSearcher.is_single_host address) as [[|]|e].
  - unfold bind. rewrite cache_subnets_reserved by exact Hres. unfold ret.
    eexists. eexists. split; [reflexivity|].
    cbn [cache net_to_cidr files not_found reversed with_trace].
    repeat split; try reflexivity.
    + intros b [= <-]. reflexivity.
    + intros e [=].
  - unfold bind. rewrite cache_subnets_reserved by exact Hres. unfold ret.
    eexists. eexists. split; [reflexivity|].
    repeat split; try reflexivity.
    + intros b [= <-]. reflexivity.
    + intros e [=].
  - eexists. eexists. split; [reflexivity|].
    repeat split; try reflexivity.
    + intros b [=].
    + intros e' [= <-]. reflexivity.
Qed.

(** C8. When the response that ends the retry loop names its first block
    with a name of [ReservedNetNames], [single_lookup] writes nothing:
    the cache mapping, the index, the files and the unresolved queue are
    what they were.  For a token that is a bare address or carries an
    integer suffix, the outcome is the looked-up one, with the record
    assembled from the block. *)
Theorem C8_reserved_name_not_cached
    (w : World) (address : string) (ip : ipaddress.IPAddress)
    (persist : bool) (s : State) (k : nat) (response : Response.t)
    (n : Net.t) (rest : list Net.t) :
  RirSearcher._check_known_nets address = (Some ip, None) ->
  uncovered (net_to_cidr s) ip ->
  (k < 3)%nat ->
  timeouts w (ipaddress.str ip) s k ->
  lookup_whois w (whois_calls s + k)%nat (ipaddress.str ip)
  = WhoisResponse response ->
  Response.nets response = n :: rest ->
  In (one_line (Net.name n)) ReservedNetNames ->
  exists r s',
    RirSearcher.single_lookup w address persist s = (r, s')
    /\ cache s' = cache s
    /\ net_to_cidr s' = net_to_cidr s
    /\ files s' = files s
    /\ not_found s' = not_found s
    /\ (forall single_host,
          RirSearcher.is_single_host address = Ok single_host ->
          r = Ok (false, false, false,
                  Some (ResolvedNetwork.mk address
                          (one_line (Net.cidr n))
                          (one_line (Net.description n))
                          (one_line (Net.name n))
                          (one_line (Net.country n))
                          (one_line (Response.asn_registry response))
                          (if single_host
                           then default ""
                                  (gethostbyaddr w
                                     (hd "" (PyStr.split "/" address)))
                           else "")))).
Proof.
  intros Hroutable Huncovered Hk Hto Hreply Hnets Hres.
  destruct (single_lookup_response w address ip persist s Hroutable
              Huncovered k response Hk Hto Hreply)
    as (s1 & -> & _ & _ & Hn1 & Hc1 & Hi1 & Hf1 & _).
  destruct (on_response_reserved w address persist response n rest s1
              Hnets Hres)
    as (r & s' & Hrun & Hc & Hi & Hf & Hn & Hok & _).
  exists r, s'. rewrite Hrun.
  split; [reflexivity|]. split; [congruence|]. split; [congruence|].
  split; [congruence|]. split; [congruence|]. exact Hok.
Qed.

(** C8 at ["8.8.8.8"], answered at once with a block named ["IANA-BLK"]. *)
Lemma C8_reserved_name_not_cached_witness :
  exists s',
    RirSearcher.single_lookup iana_world "8.8.8.8" true (new_process ∅ 0)
    = (Ok (false, false, false,
           Some (ResolvedNetwork.mk "8.8.8.8" "8.0.0.0/8" "Delegated"
                   "IANA-BLK" "US" "ARIN" "")), s')
    /\ cache s' = []
    /\ net_to_cidr s' = []
    /\ files s' = ∅.
Proof.
  destruct (C8_reserved_name_not_cached iana_world "8.8.8.8"
              (ipaddress.IPv4Address 134744072) true (new_process ∅ 0)
              0%nat iana_response
              (Net.mk (PyStr "8.0.0.0/8") (PyStr "IANA-BLK")
                 (PyStr "Delegated") (PyStr "US")) [])
    as (r & s' & Hrun & Hc & Hi & Hf & _ & Hok).
  - vm_compute. reflexivity.
  - intros net c [].
  - lia.
  - intros i Hi. lia.
  - reflexivity.
  - reflexivity.
  - left. reflexivity.
  - exists s'. rewrite Hrun. rewrite (Hok true) by reflexivity.
    split; [reflexivity|]. auto.
Defined.

(** ** Classification *)

Lemma contains_v4 na p n :
  ipaddress.contains (ipaddress.IPv4Network na p) (ipaddress.IPv4Address n)
  = (Z.land n (ipaddress._ip_int_from_prefix 32 p) =? na).
Proof. reflexivity. Qed.

(** Inside a block, outside every address that is not in the block. *)
Lemma land_submask n wide narrow v v' :
  Z.land narrow wide = wide ->
  Z.land n wide = v ->
  Z.land v' wide <> v ->
  (Z.land n narrow =? v') = false.
Proof.
  intros Hsub Hwide Hout. apply Z.eqb_neq. intros Hnarrow. apply Hout.
  rewrite <- Hnarrow, <- Z.land_assoc, Hsub. exact Hwide.
Qed.

(** Every loopback address is private for [ipaddress]: 127.0.0.0/8 and
    ::1/128 are in the tables of [is_private]. *)
Lemma loopback_is_private ip :
  ipaddress.is_loopback ip = true -> ipaddress.is_private ip = true.
Proof.
  destruct ip as [n|n scope].
  - unfold ipaddress.is_loopback, ipaddress.V4._loopback_network.
    rewrite contains_v4.
    change (ipaddress._ip_int_from_prefix 32 8) with 4278190080.
    intros Hloop. apply Z.eqb_eq in Hloop.
    unfold ipaddress.is_private, ipaddress.is_private_v4,
      ipaddress.V4._private_networks,
      ipaddress.V4._private_networks_exceptions.
    cbn [existsb forallb].
    rewrite !contains_v4.
    change (ipaddress._ip_int_from_prefix 32 8) with 4278190080.
    change (ipaddress._ip_int_from_prefix 32 32) with 4294967295.
    rewrite (proj2 (Z.eqb_eq (Z.land n 4278190080) 2130706432) Hloop).
    rewrite (land_submask n 4278190080 4294967295 2130706432 3221225481)
      by (reflexivity || exact Hloop || (vm_compute; discriminate)).
    rewrite (land_submask n 4278190080 4294967295 2130706432 3221225482)
      by (reflexivity || exact Hloop || (vm_compute; discriminate)).
    rewrite !orb_true_r. reflexivity.
  - unfold ipaddress.is_loopback. intros Hone. apply Z.eqb_eq in Hone.
    subst n. vm_compute. reflexivity.
Qed.

(** A token whose host part is a loopback address gets the private
    description: the loopback branch of [_check_known_nets] comes after
    the private one. *)
Lemma loopback_reported_private address ip :
  ipaddress.ip_address (hd "" (PyStr.split "/" address)) = Ok ip ->
  ipaddress.is_loopback ip = true ->
  RirSearcher._check_known_nets address
  = (None, Some (ResolvedNetwork.well_known address
                   Descriptions.PRIVATE_IP_DESCR)).
Proof.
  intros Hip Hloop. unfold RirSearcher._check_known_nets.
  rewrite Hip. now rewrite (loopback_is_private ip Hloop).
Qed.

(** No token is given the loopback description. *)
Lemma loopback_description_unreachable address :
  snd (RirSearcher._check_known_nets address)
  <> Some (ResolvedNetwork.well_known address Descriptions.LOOPBACK_IP_DESCR).
Proof.
  unfold RirSearcher._check_known_nets.
  destruct (ipaddress.ip_address _) as [ip|e]; [|simpl; intros [=]].
  destruct (ipaddress.is_private ip) eqn:Hpriv; [simpl; intros [=]|].
  destruct (ipaddress.is_loopback ip) eqn:Hloop.
  - apply loopback_is_private in Hloop. congruence.
  - destruct (ipaddress.is_multicast ip); [simpl; intros [=]|].
    destruct (_ || _); simpl; intros [=].
Qed.

(** A well-known token: [single_lookup] answers from the classification
    and the state is what it was. *)
Lemma single_lookup_well_known w address persist resolved_net ip s :
  RirSearcher._check_known_nets address = (ip, Some resolved_net) ->
  RirSearcher.single_lookup w address persist s
  = (Ok (true, false, false, Some resolved_net), s).
Proof.
  intros Hknown. unfold RirSearcher.single_lookup. rewrite Hknown.
  destruct ip; reflexivity.
Qed.

(** C5. The token ["127.0.0.1"]: classification returns no host address
    and a well-known record, but its description is the private one, not
    ["Loopback range"].  [single_lookup] returns the well-known outcome
    with that record, whatever the cache holds and the registry would
    answer, and leaves the state as it was. *)
Theorem C5_loopback_reported_private :
  RirSearcher._check_known_nets "127.0.0.1"
  = (None,
     Some (ResolvedNetwork.mk "127.0.0.1" ""
             "Private (RFC 1918 or APIPA) range" "" "" "" ""))
  /\ ResolvedNetwork.description
       (ResolvedNetwork.mk "127.0.0.1" ""
          "Private (RFC 1918 or APIPA) range" "" "" "" "")
     <> "Loopback range"
  /\ forall w persist s,
       RirSearcher.single_lookup w "127.0.0.1" persist s
       = (Ok (true, false, false,
              Some (ResolvedNetwork.mk "127.0.0.1" ""
                      "Private (RFC 1918 or APIPA) range" "" "" "" "")), s).
Proof.
  assert (Hknown :
    RirSearcher._check_known_nets "127.0.0.1"
    = (None,
       Some (ResolvedNetwork.mk "127.0.0.1" ""
               "Private (RFC 1918 or APIPA) range" "" "" "" "")))
    by (vm_compute; reflexivity).
  split; [exact Hknown|]. split; [simpl; discriminate|].
  intros w persist s. now apply (single_lookup_well_known _ _ _ _ None).
Qed.

(** ** The end-to-end scenario *)

(** C1, as stated, fails: for the token ["203.0.113.5"] of the scenario,
    with the empty cache and the registry answer of the scenario,
    [single_lookup] returns the well-known outcome with the private
    description, and not the looked-up one. *)
Lemma C1_counterexample :
  RirSearcher.single_lookup example_world "203.0.113.5" true
    (new_process ∅ 0)
  = (Ok (true, false, false,
         Some (ResolvedNetwork.mk "203.0.113.5" ""
                 "Private (RFC 1918 or APIPA) range" "" "" "" "")),
     new_process ∅ 0)
  /\ ~ (exists s',
          RirSearcher.single_lookup example_world "203.0.113.5" true
            (new_process ∅ 0)
          = (Ok (false, false, false,
                 Some (ResolvedNetwork.mk "203.0.113.5" "203.0.113.0/24"
                         "Example" "EXAMPLE-NET" "US" "ARIN" "")), s')
          /\ PyDict.get (cache s') "203.0.113.0/24" <> None).
Proof.
  assert (Hrun :
    RirSearcher.single_lookup example_world "203.0.113.5" true
      (new_process ∅ 0)
    = (Ok (true, false, false,
           Some (ResolvedNetwork.mk "203.0.113.5" ""
                   "Private (RFC 1918 or APIPA) range" "" "" "" "")),
       new_process ∅ 0)).
  { apply (single_lookup_well_known _ _ _ _ None). vm_compute. reflexivity. }
  split; [exact Hrun|].
  intros (s' & Hclaim & _). rewrite Hrun in Hclaim. discriminate.
Qed.

(** C1, amended.  A bare token that classification lets through, an
    empty cache, a first query answered with the one net
    [{cidr: "203.0.113.0/24", name: "EXAMPLE-NET", country: "US",
    description: "Example"}], registry ["ARIN"] and no ASN block ([None]
    or ["NA"]), no reverse-DNS entry: [single_lookup] returns the
    looked-up outcome with the record built from the net, and the cache
    then holds one entry, keyed ["203.0.113.0/24"] and stamped with the
    time of the call, with its network in the index. *)
Theorem C1_lookup_caches_block
    (w : World) (address : string) (ip : ipaddress.IPAddress)
    (persist : bool) (s : State) (response : Response.t) :
  RirSearcher._check_known_nets address = (Some ip, None) ->
  PyStr.split "/" address = [address] ->
  cache s = [] ->
  net_to_cidr s = [] ->
  lookup_whois w (whois_calls s) (ipaddress.str ip) = WhoisResponse response ->
  Response.nets response = [example_net] ->
  Response.asn_registry response = PyStr "ARIN" ->
  Response.asn_cidr response = PyNone
  \/ Response.asn_cidr response = PyStr "NA" ->
  gethostbyaddr w address = None ->
  exists s',
    RirSearcher.single_lookup w address persist s
    = (Ok (false, false, false,
           Some (ResolvedNetwork.mk address "203.0.113.0/24" "Example"
                   "EXAMPLE-NET" "US" "ARIN" "")), s')
    /\ cache s'
       = [("203.0.113.0/24",
           JsonFields.mk "EXAMPLE-NET" "Example" "US" "ARIN" ""
             (Some (clock s)))]
    /\ net_to_cidr s'
       = [(ipaddress.IPv4Network 3405803776 24, "203.0.113.0/24")].
Proof.
  intros Hroutable Hbare Hcache Hindex Hreply Hnets Hreg Hasn Hrdns.
  assert (Huncovered : uncovered (net_to_cidr s) ip).
  { rewrite Hindex. intros net c []. }
  destruct (single_lookup_response w address ip persist s Hroutable
              Huncovered 0%nat response)
    as (s1 & -> & _ & _ & _ & Hc1 & Hi1 & _ & _ & Hclock).
  { lia. }
  { intros i Hi. lia. }
  { now rewrite Nat.add_0_r. }
  rewrite Hcache in Hc1. rewrite Hindex in Hi1.
  change (Z.of_nat 0 * (TIMEOUT_SLEEP * 1000000)) with 0 in Hclock.
  rewrite Z.add_0_r in Hclock.
  unfold RirSearcher.on_response, RirSearcher.net_fields.
  rewrite Hnets, Hreg. cbn beta iota.
  unfold bind at 1. rewrite reverse_dns_run.
  unfold RirSearcher.is_single_host. rewrite Hbare. cbn [hd].
  rewrite Hrdns. cbn [default].
  unfold bind at 1, RirSearcher.cache_subnets.
  change (negb (str_in (one_line (Net.name example_net)) ReservedNetNames))
    with true.
  cbn beta iota.
  assert (Hsub : RirSearcher.subnets_of response = Ok ["203.0.113.0/24"]).
  { unfold RirSearcher.subnets_of. rewrite Hnets.
    destruct Hasn as [-> | ->]; reflexivity. }
  unfold bind at 1, lift. rewrite Hsub.
  cbn [for_each]. unfold bind at 1, bind at 1.
  rewrite (set_parsed _ (ipaddress.IPv4Network 3405803776 24))
    by (vm_compute; reflexivity).
  unfold ret at 1.
  cbn [cache net_to_cidr clock reversed with_trace]. rewrite Hc1, Hi1, Hclock.
  cbn [PyDict.set].
  destruct persist.
  - unfold bind at 1. unfold NetworkCache.save_cache, modify.
    match goal with
    | |- context [NetworkCache.save_not_found ?x] =>
        destruct (save_not_found_frame x) as (s3 & -> & Hc3 & Hi3 & _)
    end.
    unfold ret. exists s3. split; [reflexivity|].
    rewrite Hc3, Hi3. split; reflexivity.
  - unfold ret. eexists. split; [reflexivity|]. split; reflexivity.
Qed.

(** The amended C1 at the token ["8.8.8.8"]. *)
Lemma C1_lookup_caches_block_witness :
  exists s',
    RirSearcher.single_lookup example_world "8.8.8.8" true (new_process ∅ 0)
    = (Ok (false, false, false,
           Some (ResolvedNetwork.mk "8.8.8.8" "203.0.113.0/24" "Example"
                   "EXAMPLE-NET" "US" "ARIN" "")), s')
    /\ cache s' = [("203.0.113.0/24", example_entry (Some 0))].
Proof.
  destruct (C1_lookup_caches_block example_world "8.8.8.8"
              (ipaddress.IPv4Address 134744072) true (new_process ∅ 0)
              example_response)
    as (s' & Hrun & Hcache & _).
  - vm_compute. reflexivity.
  - reflexivity.
  - reflexivity.
  - reflexivity.
  - reflexivity.
  - reflexivity.
  - reflexivity.
  - left. reflexivity.
  - reflexivity.
  - exists s'. split; [exact Hrun|exact Hcache].
Defined.

(** ** The batch *)

(** A token with a suffix that [int] rejects, once the registry has
    answered: the exception of [int] leaves [single_lookup]. *)
Lemma single_lookup_bad_suffix w address ip persist s k response e :
  RirSearcher._check_known_nets address = (Some ip, None) ->
  uncovered (net_to_cidr s) ip ->
  (k < 3)%nat ->
  timeouts w (ipaddress.str ip) s k ->
  lookup_whois w (whois_calls s + k)%nat (ipaddress.str ip)
  = WhoisResponse response ->
  RirSearcher.is_single_host address = Raise e ->
  exists s',
    RirSearcher.single_lookup w address persist s = (Raise e, s')
    /\ cache s' = cache s
    /\ not_found s' = not_found s.
Proof.
  intros Hroutable Huncovered Hk Hto Hreply Hbad.
  destruct (single_lookup_response w address ip persist s Hroutable
              Huncovered k response Hk Hto Hreply)
    as (s1 & -> & _ & _ & Hn1 & Hc1 & _).
  unfold RirSearcher.on_response.
  destruct (RirSearcher.net_fields response)
    as [[[[net_cidr net_name] net_description] net_country] net_registry].
  unfold bind at 1. rewrite reverse_dns_run, Hbad.
  exists s1. auto.
Qed.

(** C2. A batch whose first token is ["8.8.8.8/abc"], with a registry
    that answers: [int("abc")] raises [ValueError] out of
    [single_lookup], and out of [search_list], which has no handler.  The
    one query made is for the first token; the second token is never
    looked up, nothing is resolved and nothing is flushed. *)
Theorem C2_batch_aborts :
  (exists s1,
      RirSearcher.single_lookup example_world "8.8.8.8/abc" false
        (batch ["8.8.8.8/abc"; "8.8.4.4"]) = (Raise ValueError, s1))
  /\ exists s',
       RirSearcher.search_list example_world
         (batch ["8.8.8.8/abc"; "8.8.4.4"]) = (Raise ValueError, s')
       /\ trace s' = [EvWhois "8.8.8.8"]
       /\ resolved_ip_list s' = []
       /\ not_found s' = []
       /\ files s' = ∅.
Proof.
  split.
  - eexists. vm_compute. reflexivity.
  - eexists. split; [vm_compute; reflexivity|].
    repeat split; reflexivity.
Qed.

(** ** The unresolved queue in a batch *)

Lemma whois_loop_frame whois n host c s :
  exists r s',
    RirSearcher.whois_loop whois n host c s = (r, s')
    /\ not_found s' = not_found s
    /\ files s' = files s.
Proof.
  revert c s. induction n as [|n IH]; intros c s; simpl.
  - unfold ret. eauto.
  - unfold bind at 1, RirSearcher.whois_query.
    destruct (whois (whois_calls s)); unfold ret, raise;
      try (eexists; eexists; split; [reflexivity|split; reflexivity]).
    unfold bind, RirSearcher.sleep.
    destruct (IH (c + 1) (slept TIMEOUT_SLEEP (queried host s)))
      as (r & s' & -> & Hn & Hf).
    exists r, s'. split; [reflexivity|]. split; assumption.
Qed.

Lemma cache_subnets_no_persist response name description country registry
    fqdn s :
  exists r s',
    RirSearcher.cache_subnets false response name description country
      registry fqdn s = (r, s')
    /\ not_found s' = not_found s
    /\ files s' = files s.
Proof.
  unfold RirSearcher.cache_subnets.
  destruct (negb (str_in name ReservedNetNames)); [|unfold ret; eauto].
  unfold bind at 1, lift.
  destruct (RirSearcher.subnets_of response) as [subnets|e]; [|eauto].
  unfold bind at 1.
  destruct (for_each_set_frame subnets name description country registry
              fqdn s) as (s1 & -> & _ & _ & Hn & Hf).
  unfold ret. eauto.
Qed.

Lemma on_response_no_persist w address response s :
  exists r s',
    RirSearcher.on_response w address false response s = (r, s')
    /\ not_found s' = not_found s
    /\ files s' = files s
    /\ match r with
       | Ok (known_net, cached, error, _) =>
           known_net = false /\ cached = false /\ error = false
       | Raise _ => True
       end.
Proof.
  unfold RirSearcher.on_response.
  destruct (RirSearcher.net_fields response)
    as [[[[net_cidr net_name] net_description] net_country] net_registry].
  unfold bind at 1. rewrite reverse_dns_run.
  destruct (RirSearcher.is_single_host address) as [[|]|e];
    [| |eexists; eexists; split; [reflexivity|]; auto];
    unfold bind, ret;
    match goal with
    | |- context [RirSearcher.cache_subnets false ?r ?a ?b ?c ?d ?f ?x] =>
        destruct (cache_subnets_no_persist r a b c d f x)
          as ([[]|e] & s1 & -> & Hn & Hf)
    end;
    eexists; eexists; (split; [reflexivity|]);
    cbn [not_found files reversed with_trace] in Hn, Hf; auto.
Qed.

(** One lookup of the batch: no file is written, and the queue grows by
    the token when the error flag is set, the two other flags being
    clear, and not at all otherwise. *)
Lemma single_lookup_no_persist w address s :
  exists r s',
    RirSearcher.single_lookup w address false s = (r, s')
    /\ files s' = files s
    /\ match r with
       | Ok (known_net, cached, true, _) =>
           known_net = false /\ cached = false
           /\ not_found s' = not_found s ++ [address]
       | _ => not_found s' = not_found s
       end.
Proof.
  unfold RirSearcher.single_lookup.
  destruct (RirSearcher._check_known_nets address) as [[ip|] [known|]];
    try (unfold ret, raise; eexists; eexists; split; [reflexivity|]; auto).
  unfold bind at 1, NetworkCache.in_cache, bind at 1, gets, ret.
  assert (Hlookup :
    exists r s',
      (let* whois := lift (IPWhois w (ipaddress.str ip)) in
       let* '(retry_count, response) :=
         RirSearcher.whois_loop whois (Z.to_nat RETRY_COUNT_MAX)
           (ipaddress.str ip) 0 in
       match response with
       | Some response =>
           if retry_count =? RETRY_COUNT_MAX
           then RirSearcher.not_found_append address;;;
                ret (false, false, true, None)
           else RirSearcher.on_response w address false response
       | None =>
           RirSearcher.not_found_append address;;;
           ret (false, false, true, None)
       end) s = (r, s')
      /\ files s' = files s
      /\ match r with
         | Ok (known_net, cached, true, _) =>
             known_net = false /\ cached = false
             /\ not_found s' = not_found s ++ [address]
         | _ => not_found s' = not_found s
         end).
  { unfold bind at 1, lift.
    destruct (IPWhois w (ipaddress.str ip)) as [whois|e];
      [|eexists; eexists; split; [reflexivity|]; auto].
    unfold bind at 1.
    destruct (whois_loop_frame whois (Z.to_nat RETRY_COUNT_MAX)
                (ipaddress.str ip) 0 s)
      as ([[retry_count response]|e] & s1 & -> & Hn1 & Hf1);
      [|eexists; eexists; split; [reflexivity|]; auto].
    assert (Hfail :
      exists r s',
        (RirSearcher.not_found_append address;;;
         ret (false, false, true, None : option ResolvedNetwork.t)) s1
        = (r, s')
        /\ files s' = files s
        /\ match r with
           | Ok (known_net, cached, true, _) =>
               known_net = false /\ cached = false
               /\ not_found s' = not_found s ++ [address]
           | _ => not_found s' = not_found s
           end).
    { unfold bind, RirSearcher.not_found_append, modify, ret.
      eexists. eexists. split; [reflexivity|].
      cbn [files not_found with_not_found]. rewrite Hn1. auto. }
    destruct response as [response|]; [|exact Hfail].
    destruct (retry_count =? RETRY_COUNT_MAX); [exact Hfail|].
    destruct (on_response_no_persist w address response s1)
      as (r & s' & -> & Hn & Hf & Hflags).
    exists r, s'. split; [reflexivity|]. split; [congruence|].
    destruct r as [[[[kn ca] er] rn]|e]; [|congruence].
    destruct Hflags as (-> & -> & ->). congruence. }
  destruct (NetworkCache.first_match (net_to_cidr s) ip) as [[|c net]|];
    try exact Hlookup.
  unfold bind, NetworkCache.get_network, bind, gets, ret, raise.
  destruct (PyDict.get (cache s) (String c net));
    eexists; eexists; (split; [reflexivity|]); auto.
Qed.

(** The loop on a list is the loop on its first token followed by the
    loop on the rest. *)
Lemma search_loop_cons w address ip_list cache_hits lookups s :
  RirSearcher.search_loop w (address :: ip_list) cache_hits lookups s
  = match RirSearcher.search_loop w [address] cache_hits lookups s with
    | (Ok (cache_hits', lookups'), s') =>
        RirSearcher.search_loop w ip_list cache_hits' lookups' s'
    | (Raise e, s') => (Raise e, s')
    end.
Proof.
  cbn [RirSearcher.search_loop]. unfold bind.
  destruct (RirSearcher.single_lookup w address false s)
    as [[[[[known_net cached] error] resolved_net]|e] s1]; [|reflexivity].
  destruct known_net; [reflexivity|].
  destruct cached; [reflexivity|].
  destruct error; [reflexivity|].
  destruct ((lookups + 1) mod SLEEP_INTERVAL =? 0);
    destruct ((lookups + 1) mod CACHE_SAVE_INTERVAL =? 0); reflexivity.
Qed.

(** One turn of the loop: a failed token is queued twice, any other
    token not at all, and the file of unresolved tokens is not
    written. *)
Lemma search_step_queue w address cache_hits lookups s :
  exists r s',
    RirSearcher.search_loop w [address] cache_hits lookups s = (r, s')
    /\ not_found s'
       = not_found s
         ++ twice match RirSearcher.single_lookup w address false s with
                  | (Ok (_, _, true, _), _) => [address]
                  | _ => []
                  end
    /\ files s' !! NOT_FOUND_FILE = files s !! NOT_FOUND_FILE.
Proof.
  cbn [RirSearcher.search_loop]. unfold bind.
  destruct (single_lookup_no_persist w address s)
    as (r & s1 & -> & Hf1 & Hq1).
  destruct r as [[[[known_net cached] error] resolved_net]|e].
  2: { eexists. eexists. split; [reflexivity|].
       rewrite Hq1, Hf1, app_nil_r. auto. }
  destruct error.
  - destruct Hq1 as (-> & -> & Hq1).
    unfold RirSearcher.not_found_append, modify, ret.
    eexists. eexists. split; [reflexivity|].
    cbn [not_found files with_not_found twice flat_map].
    rewrite Hq1, Hf1, <- app_assoc. auto.
  - unfold RirSearcher.resolved_append, RirSearcher.sleep,
      NetworkCache.save_cache, modify, ret.
    destruct known_net; [|destruct cached;
      [|destruct ((lookups + 1) mod SLEEP_INTERVAL =? 0);
        destruct ((lookups + 1) mod CACHE_SAVE_INTERVAL =? 0)]];
      (eexists; eexists; split; [reflexivity|]);
      cbn [not_found files with_resolved_ip_list with_files slept with_trace
           with_clock twice flat_map];
      rewrite ?Hq1, ?Hf1, ?app_nil_r;
      (split; [reflexivity|]);
      try reflexivity;
      (rewrite lookup_insert_ne by discriminate; reflexivity).
Qed.

(** The loop: the queue grows by every failed token, twice, and the file
    of unresolved tokens is not written. *)
Lemma search_loop_queue w ip_list cache_hits lookups s :
  not_found (snd (RirSearcher.search_loop w ip_list cache_hits lookups s))
  = not_found s ++ twice (failed_tokens w ip_list cache_hits lookups s)
  /\ files (snd (RirSearcher.search_loop w ip_list cache_hits lookups s))
       !! NOT_FOUND_FILE
     = files s !! NOT_FOUND_FILE.
Proof.
  revert cache_hits lookups s.
  induction ip_list as [|address ip_list IH]; intros cache_hits lookups s.
  - cbn [RirSearcher.search_loop failed_tokens twice flat_map]. unfold ret.
    cbn [snd]. rewrite app_nil_r. auto.
  - rewrite search_loop_cons. cbn [failed_tokens].
    destruct (search_step_queue w address cache_hits lookups s)
      as (r & s1 & Hstep & Hq & Hf).
    rewrite Hstep. unfold twice in *. rewrite flat_map_app.
    destruct r as [[cache_hits' lookups']|e].
    + destruct (IH cache_hits' lookups' s1) as [IHq IHf].
      rewrite IHq, IHf, Hq, Hf, <- app_assoc. auto.
    + cbn [snd flat_map]. rewrite Hq, Hf, app_nil_r. auto.
Qed.

(** C10. In the list batch a token whose lookup fails is appended to the
    unresolved queue twice per occurrence: once by [single_lookup], once
    more by the loop of [search_list] on seeing the error flag.  The loop
    adds nothing else to the queue, so the text that the closing
    [save_not_found] writes holds every failed token two times. *)
Theorem C10_failed_tokens_queued_twice (w : World) :
  (forall address cache_hits lookups s known_net cached resolved_net s1,
      RirSearcher.single_lookup w address false s
      = (Ok (known_net, cached, true, resolved_net), s1) ->
      not_found s1 = not_found s ++ [address]
      /\ exists s2,
           RirSearcher.search_loop w [address] cache_hits lookups s
           = (Ok (cache_hits, lookups + 1), s2)
           /\ not_found s2 = not_found s ++ [address; address])
  /\ (forall ip_list cache_hits lookups s,
        not_found
          (snd (RirSearcher.search_loop w ip_list cache_hits lookups s))
        = not_found s ++ twice (failed_tokens w ip_list cache_hits lookups s))
  /\ (forall s,
        let queue :=
          not_found s ++ twice (failed_tokens w (raw_ip_list s) 0 0 s) in
        match RirSearcher.search_list w s with
        | (Ok _, s') =>
            not_found s' = []
            /\ files s' !! NOT_FOUND_FILE
               = match queue with
                 | [] => files s !! NOT_FOUND_FILE
                 | _ :: _ =>
                     Some (default [] (files s !! NOT_FOUND_FILE)
                           ++ [Txt (PyStr.join (String "010" "") queue)])
                 end
        | (Raise _, s') => not_found s' = queue
        end).
Proof.
  split; [|split].
  - intros address cache_hits lookups s known_net cached resolved_net s1 Hrun.
    destruct (single_lookup_no_persist w address s)
      as (r & s1' & Hrun' & _ & Hq).
    rewrite Hrun in Hrun'. inversion Hrun'; subst r s1'. clear Hrun'.
    destruct Hq as (-> & -> & Hq). split; [exact Hq|].
    cbn [RirSearcher.search_loop]. unfold bind. rewrite Hrun.
    unfold RirSearcher.not_found_append, modify, ret.
    eexists. split; [reflexivity|].
    cbn [not_found with_not_found]. rewrite Hq, <- app_assoc. reflexivity.
  - intros ip_list cache_hits lookups s.
    apply search_loop_queue.
  - intros s queue. subst queue.
    unfold RirSearcher.search_list, bind, gets.
    destruct (search_loop_queue w (raw_ip_list s) 0 0 s) as [Hq Hf].
    destruct (RirSearcher.search_loop w (raw_ip_list s) 0 0 s)
      as [[counters|e] s1]; cbn [snd] in Hq, Hf; [|exact Hq].
    rewrite <- Hq.
    assert (Hflush : forall s2,
      not_found s2 = not_found s1 ->
      files s2 !! NOT_FOUND_FILE = files s !! NOT_FOUND_FILE ->
      match
        (let (r, s') := NetworkCache.save_not_found s2 in
         match r with
         | Ok _ => ret counters s'
         | Raise e => (Raise e, s')
         end)
      with
      | (Ok _, s') =>
          not_found s' = []
          /\ files s' !! NOT_FOUND_FILE
             = match not_found s1 with
               | [] => files s !! NOT_FOUND_FILE
               | _ :: _ =>
                   Some (default [] (files s !! NOT_FOUND_FILE)
                         ++ [Txt (PyStr.join (String "010" "")
                                    (not_found s1))])
               end
      | (Raise _, s') => not_found s' = not_found s1
      end).
    { intros s2 Hn2 Hf2.
      unfold NetworkCache.save_not_found, bind, gets, modify, ret.
      rewrite Hn2. destruct (not_found s1) as [|a l] eqn:Hqueue.
      - cbn [length Z.of_nat Z.eqb]. split; [exact Hn2|exact Hf2].
      - change (Z.of_nat (length (a :: l)) =? 0) with false. cbn beta iota.
        cbn [not_found files with_not_found with_files].
        split; [reflexivity|]. rewrite lookup_insert_eq, Hf2. reflexivity. }
    destruct (start_cache_size s1 <? PyDict.len (cache s1)).
    + unfold NetworkCache.save_cache, modify. apply Hflush.
      * reflexivity.
      * cbn [files with_files]. rewrite lookup_insert_ne by discriminate.
        exact Hf.
    + unfold ret at 1. apply Hflush; [reflexivity|exact Hf].
Qed.

(** C10 at a batch of two tokens whose queries all time out. *)
Lemma C10_failed_tokens_queued_twice_witness :
  (exists s1 s2,
      RirSearcher.single_lookup silent_world "8.8.8.8" false
        (batch ["8.8.8.8"; "1.1.1.1"])
      = (Ok (false, false, true, None), s1)
      /\ not_found s1 = ["8.8.8.8"]
      /\ RirSearcher.search_loop silent_world ["8.8.8.8"] 0 0
           (batch ["8.8.8.8"; "1.1.1.1"]) = (Ok (0, 1), s2)
      /\ not_found s2 = ["8.8.8.8"; "8.8.8.8"])
  /\ exists s',
       RirSearcher.search_list silent_world (batch ["8.8.8.8"; "1.1.1.1"])
       = (Ok (0, 2), s')
       /\ files s' !! NOT_FOUND_FILE
          = Some [Txt (PyStr.join (String "010" "")
                         ["8.8.8.8"; "8.8.8.8"; "1.1.1.1"; "1.1.1.1"])].
Proof.
  destruct (C10_failed_tokens_queued_twice silent_world)
    as (Hone & _ & Hflush).
  split.
  - eexists. 
    edestruct (Hone "8.8.8.8" 0 0 (batch ["8.8.8.8"; "1.1.1.1"]))
      as (Hq1 & s2 & Hstep & Hq2).
    + vm_compute. reflexivity.
    + exists s2. split; [vm_compute; reflexivity|].
      split; [exact Hq1|]. split; [exact Hstep|exact Hq2].
  - specialize (Hflush (batch ["8.8.8.8"; "1.1.1.1"])).
    destruct (RirSearcher.search_list silent_world
                (batch ["8.8.8.8"; "1.1.1.1"])) as [r s'] eqn:Hrun.
    vm_compute in Hrun. inversion Hrun; subst r s'. clear Hrun.
    destruct Hflush as [_ Hfile].
    eexists. split; [reflexivity|].
    vm_compute in Hfile. vm_compute. exact Hfile.
Defined.
